(** * FETS HUB: catalog derivation and edit workflow

    A shallow embedding of the logic of [src/App.tsx] (the derived lists
    [filteredProjects] and [projectsByStatus], the handlers
    [handleCreateProject] and [handleUpdateProject]) and of
    [src/components/ProjectModal.tsx] (the RBAC flags, [handleGenerate] and
    [handleSubmit]), followed by the properties of the specification that
    concern them.

    Conventions of the embedding.
    - A JavaScript string is a [string]: a sequence of code units, each an
      [ascii] read as the code unit U+0000..U+00FF.  The built-ins
      [toLowerCase], [trim], [includes] and [split] are written out below
      and are exact on such strings.
    - A JavaScript number that holds a time stamp is a [Z]; [NaN] and
      [undefined] are [None] where the source can meet them.
    - [Date.now()] is an input of the handler that reads it: one argument
      per call site, in the order of evaluation.
    - React state is passed explicitly: a handler maps the state it closes
      over to the state it sets. *)

From Stdlib Require Import ZArith NArith Ascii String List Bool Lia.
From Stdlib Require Import DecimalString DecimalPos DecimalZ.
From stdpp Require Import base option gmap strings list fin_maps.

Import ListNotations.
Local Open Scope string_scope.
Local Open Scope list_scope.

(** ** JavaScript string built-ins *)

Module JS.

(** Code unit of a character. *)
Definition code (c : ascii) : N := N_of_ascii c.

(** [String.prototype.toLowerCase] on one code unit of U+0000..U+00FF:
    A-Z and the Latin-1 capitals U+00C0..U+00DE (but not the
    multiplication sign U+00D7) move up by 32. *)
Definition lowerChar (c : ascii) : ascii :=
  let n := code c in
  if ((65 <=? n) && (n <=? 90))%N
     || ((192 <=? n) && (n <=? 222) && negb (n =? 215))%N
  then ascii_of_N (n + 32)
  else c.

Fixpoint toLowerCase (s : string) : string :=
  match s with
  | EmptyString => EmptyString
  | String c s' => String (lowerChar c) (toLowerCase s')
  end.

(** White space of [String.prototype.trim] within U+0000..U+00FF:
    TAB, LF, VT, FF, CR, SPACE and NO-BREAK SPACE. *)
Definition isWhiteSpace (c : ascii) : bool :=
  let n := code c in
  ((9 <=? n) && (n <=? 13) || (n =? 32) || (n =? 160))%N.

Definition isEmpty (s : string) : bool :=
  match s with EmptyString => true | String _ _ => false end.

Fixpoint trimStart (s : string) : string :=
  match s with
  | EmptyString => EmptyString
  | String c s' => if isWhiteSpace c then trimStart s' else s
  end.

Fixpoint trimEnd (s : string) : string :=
  match s with
  | EmptyString => EmptyString
  | String c s' =>
      let r := trimEnd s' in
      if isWhiteSpace c && isEmpty r then EmptyString else String c r
  end.

Definition trim (s : string) : string := trimEnd (trimStart s).

(** [t] occurs at the start of [s]. *)
Fixpoint startsWith (s t : string) {struct t} : bool :=
  match t, s with
  | EmptyString, _ => true
  | String _ _, EmptyString => false
  | String a t', String b s' => Ascii.eqb a b && startsWith s' t'
  end.

(** [s.includes(t)]: [t] occurs somewhere in [s]. *)
Fixpoint includes (s t : string) : bool :=
  startsWith s t ||
  match s with
  | EmptyString => false
  | String _ s' => includes s' t
  end.

(** [s.split(',')]: the segments between the commas; never an empty
    array (the empty string gives one empty segment). *)
Fixpoint split_comma (s : string) : list string :=
  match s with
  | EmptyString => [EmptyString]
  | String c s' =>
      if Ascii.eqb c "," then EmptyString :: split_comma s'
      else match split_comma s' with
           | seg :: segs => String c seg :: segs
           | [] => [String c EmptyString]
           end
  end.

(** [segs.join(sep)]. *)
Fixpoint join (sep : string) (segs : list string) : string :=
  match segs with
  | [] => EmptyString
  | [seg] => seg
  | seg :: segs' => String.append seg (String.append sep (join sep segs'))
  end.

(** Truthiness of a string, as in [filter(Boolean)], [if (q)], [a || b]. *)
Definition truthy (s : string) : bool := negb (isEmpty s).

(** [a || b] on strings. *)
Definition or_else (a b : string) : string := if truthy a then a else b.

(** [n.toString()] for an integer number. *)
Definition toString (n : Z) : string := NilEmpty.string_of_int (Z.to_int n).

(** [arr.includes(x)] on an array of strings. *)
Definition arrayIncludes (arr : list string) (x : string) : bool :=
  existsb (String.eqb x) arr.

End JS.

(** ** Data model ([types.ts], as used by the two components) *)

(** [UserRole]: a closed enumeration, only ever compared for equality. *)
Inductive UserRole := ADMIN | DEVELOPER | EDITOR | VIEWER.

Definition UserRole_eqb (a b : UserRole) : bool :=
  match a, b with
  | ADMIN, ADMIN | DEVELOPER, DEVELOPER | EDITOR, EDITOR | VIEWER, VIEWER => true
  | _, _ => false
  end.

Module User.
Record t := mk
  { id : string; name : string; email : string; role : UserRole;
    avatarUrl : string }.
End User.

Module ChangeLogEntry.
Record t := mk
  { id : string; date : Z; author : string; reason : string }.
End ChangeLogEntry.

(** A catalog entity.  [status] and [itemType] are the strings the object
    holds at run time; optional members are [option]s. *)
Module Project.
Record t := mk
  { id : string;
    name : string;
    description : string;
    status : string;
    websiteUrl : option string;
    repoUrl : option string;
    imageUrl : option string;
    techStack : list string;
    files : string;
    createdAt : Z;
    itemType : string;
    changeHistory : option (list ChangeLogEntry.t) }.
End Project.

(** The form payload: the modal's [formData], plus [createdAt] once
    [handleSubmit] has resolved the date. *)
Module ProjectFormData.
Record t := mk
  { name : string;
    description : string;
    status : string;
    websiteUrl : string;
    repoUrl : string;
    imageUrl : string;
    techStack : string;
    files : string;
    itemType : string;
    changeReason : option string;
    createdAt : option Z }.
End ProjectFormData.

(** [a || b] on numbers that may be [undefined] or [NaN]: 0 is falsy too. *)
Definition number_or_else (a : option Z) (b : Z) : Z :=
  match a with
  | Some n => if (n =? 0)%Z then b else n
  | None => b
  end.

(** Truthiness of a value that is an object or [undefined]. *)
Definition isDefined {A : Type} (a : option A) : bool :=
  match a with Some _ => true | None => false end.

(** [a || ''] on an optional string. *)
Definition opt_or_else (a : option string) (b : string) : string :=
  match a with
  | Some s => JS.or_else s b
  | None => b
  end.

(** ** App.tsx: derived lists *)

(** The keyword set of the 'FETS Apps' category. *)
Definition FETS_APPS_KEYWORDS : list string :=
  ["React"; "Vue"; "Angular"; "Svelte"; "Next.js"; "HTML"; "Node"].

(** The predicate of the search filter, for an already lower-cased query. *)
Definition matchesQuery (lowerQuery : string) (p : Project.t) : bool :=
  JS.includes (JS.toLowerCase (Project.name p)) lowerQuery
  || JS.includes (JS.toLowerCase (Project.description p)) lowerQuery
  || existsb (fun tech => JS.includes (JS.toLowerCase tech) lowerQuery)
       (Project.techStack p).

(** The predicate of the 'FETS Apps' category filter. *)
Definition isFetsApp (p : Project.t) : bool :=
  String.eqb (Project.itemType p) "app"
  && existsb (fun t => existsb (fun k => JS.includes t k) FETS_APPS_KEYWORDS)
       (Project.techStack p).

(** [filteredProjects] (App.tsx, lines 83-112). *)
Definition filteredProjects (projects : list Project.t)
    (activeCategory searchQuery : string) (myList : list string)
    : list Project.t :=
  let filtered := projects in
  (* 1. Filter by Category *)
  let filtered :=
    if String.eqb activeCategory "Home" then
      List.filter (fun p => String.eqb (Project.itemType p) "app") filtered
    else if String.eqb activeCategory "Resources" then
      List.filter (fun p => String.eqb (Project.itemType p) "file") filtered
    else if String.eqb activeCategory "My List" then
      List.filter (fun p => JS.arrayIncludes myList (Project.id p)) filtered
    else if String.eqb activeCategory "FETS Apps" then
      List.filter isFetsApp filtered
    else filtered in
  (* 2. Filter by Search *)
  if JS.truthy searchQuery then
    let lowerQuery := JS.toLowerCase searchQuery in
    List.filter (matchesQuery lowerQuery) projects
  else filtered.

(** Property names every object literal inherits from [Object.prototype];
    each holds a truthy value (a function, or for [__proto__] the
    prototype object itself) that has no [push] method. *)
Definition Object_prototype_keys : list string :=
  ["constructor"; "__defineGetter__"; "__defineSetter__"; "hasOwnProperty";
   "__lookupGetter__"; "__lookupSetter__"; "isPrototypeOf";
   "propertyIsEnumerable"; "toString"; "valueOf"; "__proto__";
   "toLocaleString"].

Definition inherited (key : string) : bool :=
  JS.arrayIncludes Object_prototype_keys key.

(** The body of the [forEach] of [projectsByStatus]: [grouped] holds the
    own properties of the object; [None] is the [TypeError] raised by
    calling the missing [push] of an inherited value. *)
Definition groupOne (grouped : gmap string (list Project.t)) (p : Project.t)
    : option (gmap string (list Project.t)) :=
  match grouped !! Project.status p with
  | Some bucket =>
      (* grouped[p.status] is an own array, truthy even when empty *)
      Some (<[Project.status p := bucket ++ [p]]> grouped)
  | None =>
      if inherited (Project.status p) then None
      else
        let grouped :=
          match grouped !! "Other" with
          | Some _ => grouped
          | None => <["Other" := []]> grouped
          end in
        Some (<["Other" := default [] (grouped !! "Other") ++ [p]]> grouped)
  end.

Fixpoint groupAll (grouped : gmap string (list Project.t))
    (ps : list Project.t) : option (gmap string (list Project.t)) :=
  match ps with
  | [] => Some grouped
  | p :: ps' =>
      match groupOne grouped p with
      | Some grouped' => groupAll grouped' ps'
      | None => None
      end
  end.

(** The bucket read by the rows: [projectsByStatus[key]], an absent key
    (only 'Other' can be absent) showing nothing. *)
Definition bucket (grouped : gmap string (list Project.t)) (key : string)
    : list Project.t :=
  default [] (grouped !! key).

(** ** App.tsx: state and handlers *)

(** The part of the component state the handlers read and set. *)
Record AppState := mkAppState
  { projects : list Project.t;
    editingProject : option Project.t;
    isModalOpen : bool;
    currentUser : option User.t;
    myList : list string;
    activeCategory : string;
    searchQuery : string }.

Definition setProjects (ps : list Project.t) (st : AppState) : AppState :=
  {| projects := ps; editingProject := editingProject st;
     isModalOpen := isModalOpen st; currentUser := currentUser st;
     myList := myList st; activeCategory := activeCategory st;
     searchQuery := searchQuery st |}.

Definition setEditingProject (e : option Project.t) (st : AppState) : AppState :=
  {| projects := projects st; editingProject := e;
     isModalOpen := isModalOpen st; currentUser := currentUser st;
     myList := myList st; activeCategory := activeCategory st;
     searchQuery := searchQuery st |}.

Definition setIsModalOpen (b : bool) (st : AppState) : AppState :=
  {| projects := projects st; editingProject := editingProject st;
     isModalOpen := b; currentUser := currentUser st;
     myList := myList st; activeCategory := activeCategory st;
     searchQuery := searchQuery st |}.

(** [data.techStack.split(',').map(s => s.trim()).filter(Boolean)]. *)
Definition parseTechStack (techStack : string) : list string :=
  List.filter JS.truthy (List.map JS.trim (JS.split_comma techStack)).

(** [handleCreateProject] (App.tsx, lines 158-174).  [now_id] is the
    [Date.now()] of the [id], [now_created] the one of the [createdAt]
    fallback. *)
Definition handleCreateProject (now_id now_created : Z)
    (data : ProjectFormData.t) (st : AppState) : AppState :=
  let newProject :=
    {| Project.id := JS.toString now_id;
       Project.createdAt := number_or_else (ProjectFormData.createdAt data) now_created;
       Project.name := ProjectFormData.name data;
       Project.description := ProjectFormData.description data;
       Project.status := ProjectFormData.status data;
       Project.websiteUrl := Some (ProjectFormData.websiteUrl data);
       Project.repoUrl := Some (ProjectFormData.repoUrl data);
       Project.imageUrl := Some (ProjectFormData.imageUrl data);
       Project.techStack := parseTechStack (ProjectFormData.techStack data);
       Project.files := ProjectFormData.files data;
       Project.itemType := ProjectFormData.itemType data;
       Project.changeHistory := Some [] |} in
  setProjects (newProject :: projects st) st.

(** The object spread of [handleUpdateProject]: [p] with the form's
    members written over it and [newLog] appended to its history. *)
Definition updateProject (data : ProjectFormData.t)
    (newLog : ChangeLogEntry.t) (p : Project.t) : Project.t :=
  {| Project.id := Project.id p;
     Project.name := ProjectFormData.name data;
     Project.description := ProjectFormData.description data;
     Project.status := ProjectFormData.status data;
     Project.websiteUrl := Some (ProjectFormData.websiteUrl data);
     Project.repoUrl := Some (ProjectFormData.repoUrl data);
     Project.imageUrl := Some (ProjectFormData.imageUrl data);
     Project.techStack := parseTechStack (ProjectFormData.techStack data);
     Project.files := ProjectFormData.files data;
     Project.itemType := ProjectFormData.itemType data;
     Project.createdAt :=
       number_or_else (ProjectFormData.createdAt data) (Project.createdAt p);
     Project.changeHistory :=
       Some (default [] (Project.changeHistory p) ++ [newLog]) |}.

(** [editingProject?.id] when it is truthy. *)
Definition editingId (st : AppState) : option string :=
  match editingProject st with
  | Some e => if JS.truthy (Project.id e) then Some (Project.id e) else None
  | None => None
  end.

(** The change-log entry of [handleUpdateProject] (lines 180-185);
    [now_id] and [now_date] are its two [Date.now()]. *)
Definition newLog (now_id now_date : Z) (data : ProjectFormData.t)
    (st : AppState) : ChangeLogEntry.t :=
  {| ChangeLogEntry.id := JS.toString now_id;
     ChangeLogEntry.date := now_date;
     ChangeLogEntry.author :=
       opt_or_else (option_map User.name (currentUser st)) "Unknown";
     ChangeLogEntry.reason :=
       opt_or_else (ProjectFormData.changeReason data) "General update" |}.

(** [handleUpdateProject] (App.tsx, lines 176-207). *)
Definition handleUpdateProject (now_id now_date : Z)
    (data : ProjectFormData.t) (st : AppState) : AppState :=
  match editingId st with
  | None => st
  | Some eid =>
      let updatedProjects :=
        List.map (fun p => if String.eqb (Project.id p) eid
                           then updateProject data (newLog now_id now_date data st) p
                           else p)
          (projects st) in
      setProjects updatedProjects st
  end.

(** ** ProjectModal.tsx *)

(** The props the handlers of the modal read ([isOpen], [onClose] and
    [onSave] are wired in [submitCreate] and [submitEdit] below). *)
Record ModalProps := mkModalProps
  { initialData : option Project.t;
    modalUser : option User.t (* the prop [currentUser] *) }.

(** The modal's own state: [formData] and [dateInput]. *)
Record ModalState := mkModalState
  { formData : ProjectFormData.t;
    dateInput : string }.

Definition roleIs (u : option User.t) (r : UserRole) : bool :=
  match u with
  | Some usr => UserRole_eqb (User.role usr) r
  | None => false
  end.

(** RBAC checks (ProjectModal.tsx, lines 75-81). *)
Definition isEditor (props : ModalProps) : bool := roleIs (modalUser props) EDITOR.
Definition isAdmin (props : ModalProps) : bool := roleIs (modalUser props) ADMIN.
Definition isDev (props : ModalProps) : bool := roleIs (modalUser props) DEVELOPER.
Definition canEditTechnical (props : ModalProps) : bool := negb (isEditor props).
Definition canEditMetadata (props : ModalProps) : bool :=
  negb (roleIs (modalUser props) VIEWER).

Definition withDescriptionFiles (description files : string)
    (d : ProjectFormData.t) : ProjectFormData.t :=
  {| ProjectFormData.name := ProjectFormData.name d;
     ProjectFormData.description := description;
     ProjectFormData.status := ProjectFormData.status d;
     ProjectFormData.websiteUrl := ProjectFormData.websiteUrl d;
     ProjectFormData.repoUrl := ProjectFormData.repoUrl d;
     ProjectFormData.imageUrl := ProjectFormData.imageUrl d;
     ProjectFormData.techStack := ProjectFormData.techStack d;
     ProjectFormData.files := files;
     ProjectFormData.itemType := ProjectFormData.itemType d;
     ProjectFormData.changeReason := ProjectFormData.changeReason d;
     ProjectFormData.createdAt := ProjectFormData.createdAt d |}.

(** What the click on the generate button does before the request is
    awaited (lines 84-90). *)
Inductive GenerateStart :=
| Ignored                         (* return *)
| Refused (message : string)      (* alert(message); return *)
| Requested (name techStack : string)
    (* setIsGenerating(true); generateProjectDetails(name, techStack) *).

(** The first half of [handleGenerate] (lines 84-90), on the form data
    of the render in which the button was clicked. *)
Definition handleGenerate_start (props : ModalProps)
    (formData : ProjectFormData.t) : GenerateStart :=
  if negb (canEditTechnical props) then Ignored
  else if negb (JS.truthy (ProjectFormData.name formData))
          || negb (JS.truthy (ProjectFormData.techStack formData))
  then Refused "Please enter Name and Tech Stack first."
  else Requested (ProjectFormData.name formData)
         (ProjectFormData.techStack formData).

(** The second half of [handleGenerate] (lines 91-99), when the request
    has answered with [result]: the value given to [setIsGenerating] and
    the form data, computed by the updater from [prev], the form data at
    that time, which an edit or a reset of the form during the request
    has made another than the one of the click. *)
Definition handleGenerate_finish (result : option (string * string))
    (prev : ProjectFormData.t) : bool * ProjectFormData.t :=
  (false,
   match result with
   | Some (description, suggestedFiles) =>
       withDescriptionFiles description
         (JS.or_else (ProjectFormData.files prev) suggestedFiles) prev
   | None => prev
   end).

(** [handleGenerate] (lines 83-100) from the click to the answer when
    the form data are not changed in between, with the answer of the
    text generation service as an input: the new form data and the
    alerts shown.  It is the one handler of the modal that checks a
    capability before it acts. *)
Definition handleGenerate (props : ModalProps) (result : option (string * string))
    (d : ProjectFormData.t) : ProjectFormData.t * list string :=
  if negb (canEditTechnical props) then (d, [])
  else if negb (JS.truthy (ProjectFormData.name d))
          || negb (JS.truthy (ProjectFormData.techStack d))
  then (d, ["Please enter Name and Tech Stack first."])
  else match result with
       | Some (description, suggestedFiles) =>
           (withDescriptionFiles description
              (JS.or_else (ProjectFormData.files d) suggestedFiles) d, [])
       | None => (d, [])
       end.

(** The asset branch of [handleFileChange] (lines 130-138); [assetInfo]
    is the formatted line.  The input that triggers it is rendered under
    [canEditMetadata]. *)
Definition handleFileChange_asset (assetInfo : string)
    (d : ProjectFormData.t) : ProjectFormData.t :=
  withDescriptionFiles (ProjectFormData.description d)
    (if JS.truthy (ProjectFormData.files d)
     then ProjectFormData.files d ++ assetInfo else assetInfo) d.

(** What a call of [handleSubmit] does. *)
Inductive SubmitResult :=
| Alert (message : string)             (* alert(message); return *)
| Save (finalData : ProjectFormData.t) (* onSave(finalData); onClose() *).

Section Workflow.

(** [types.ts] is not among the sources.  The string values of the
    members of its enum [ProjectStatus] are parameters, and so is the
    date parser of the platform: [Date_getTime s] is
    [new Date(s).getTime()], [None] standing for [NaN]. *)
Variables IDEA IN_PROGRESS COMPLETED ARCHIVED : string.
Variable Date_getTime : string -> option Z.

#[local] Set Default Proof Using "Type".

(** The object literal [projectsByStatus] starts from. *)
Definition emptyGroups : gmap string (list Project.t) :=
  <[ARCHIVED := []]> (<[IDEA := []]> (<[COMPLETED := []]>
    (<[IN_PROGRESS := []]> ∅))).

(** [projectsByStatus] (App.tsx, lines 115-132); [None] when the
    [forEach] raises. *)
Definition projectsByStatus (filtered : list Project.t)
    : option (gmap string (list Project.t)) :=
  groupAll emptyGroups filtered.

(** The form a freshly opened modal shows (lines 33-72), the date
    picker apart. *)
Definition initialFormData (props : ModalProps) : ProjectFormData.t :=
  match initialData props with
  | Some p =>
      {| ProjectFormData.name := Project.name p;
         ProjectFormData.description := Project.description p;
         ProjectFormData.status := Project.status p;
         ProjectFormData.websiteUrl := opt_or_else (Project.websiteUrl p) "";
         ProjectFormData.repoUrl := opt_or_else (Project.repoUrl p) "";
         ProjectFormData.imageUrl := opt_or_else (Project.imageUrl p) "";
         ProjectFormData.techStack := JS.join ", " (Project.techStack p);
         ProjectFormData.files := Project.files p;
         ProjectFormData.itemType := JS.or_else (Project.itemType p) "app";
         ProjectFormData.changeReason := Some "";
         ProjectFormData.createdAt := None |}
  | None =>
      {| ProjectFormData.name := "";
         ProjectFormData.description := "";
         ProjectFormData.status := IDEA;
         ProjectFormData.websiteUrl := "";
         ProjectFormData.repoUrl := "";
         ProjectFormData.imageUrl := "";
         ProjectFormData.techStack := "";
         ProjectFormData.files := "";
         ProjectFormData.itemType := "app";
         ProjectFormData.changeReason := Some "";
         ProjectFormData.createdAt := None |}
  end.

(** [!formData.changeReason?.trim()]. *)
Definition changeReasonMissing (d : ProjectFormData.t) : bool :=
  match ProjectFormData.changeReason d with
  | Some r => negb (JS.truthy (JS.trim r))
  | None => true
  end.

(** [finalData] of [handleSubmit] (lines 180-184). *)
Definition finalData (now : Z) (m : ModalState) : ProjectFormData.t :=
  let d := formData m in
  {| ProjectFormData.name := ProjectFormData.name d;
     ProjectFormData.description := ProjectFormData.description d;
     ProjectFormData.status :=
       if String.eqb (ProjectFormData.itemType d) "file"
       then COMPLETED else ProjectFormData.status d;
     ProjectFormData.websiteUrl := ProjectFormData.websiteUrl d;
     ProjectFormData.repoUrl := ProjectFormData.repoUrl d;
     ProjectFormData.imageUrl := ProjectFormData.imageUrl d;
     ProjectFormData.techStack := ProjectFormData.techStack d;
     ProjectFormData.files := ProjectFormData.files d;
     ProjectFormData.itemType := ProjectFormData.itemType d;
     ProjectFormData.changeReason := ProjectFormData.changeReason d;
     ProjectFormData.createdAt :=
       Some (number_or_else (Date_getTime (dateInput m)) now) |}.

(** [handleSubmit] (ProjectModal.tsx, lines 165-188); [now] is the
    [Date.now()] of the date fallback.  No capability flag is read. *)
Definition handleSubmit (now : Z) (props : ModalProps) (m : ModalState)
    : SubmitResult :=
  if negb (JS.truthy (JS.trim (ProjectFormData.name (formData m)))) then
    Alert "Project/File Name is required."
  else if isDefined (initialData props) && changeReasonMissing (formData m) then
    Alert "Please provide a reason for these changes to maintain the audit log."
  else Save (finalData now m).

(** A submit in the create modal (App.tsx, lines 625-630): the state
    after it and the alerts shown. *)
Definition submitCreate (now_date now_id now_created : Z)
    (st : AppState) (m : ModalState) : AppState * list string :=
  let props := {| initialData := None; modalUser := currentUser st |} in
  match handleSubmit now_date props m with
  | Alert message => (st, [message])
  | Save data =>
      (setIsModalOpen false (handleCreateProject now_id now_created data st), [])
  end.

(** A submit in the edit modal (App.tsx, lines 632-638). *)
Definition submitEdit (now_date now_id now_log : Z)
    (st : AppState) (m : ModalState) : AppState * list string :=
  let props := {| initialData := editingProject st;
                  modalUser := currentUser st |} in
  match handleSubmit now_date props m with
  | Alert message => (st, [message])
  | Save data =>
      (setEditingProject None (handleUpdateProject now_id now_log data st), [])
  end.


(** [openCreateModal] and [openEditModal] (App.tsx, lines 220-228); the
    detail view that the second one closes is not part of [AppState]. *)
Definition openCreateModal (st : AppState) : AppState :=
  setIsModalOpen true (setEditingProject None st).

Definition openEditModal (project : Project.t) (st : AppState) : AppState :=
  setEditingProject (Some project) st.

(** ** Notions the properties are stated with *)

Fixpoint allWhiteSpace (s : string) : bool :=
  match s with
  | EmptyString => true
  | String c s' => JS.isWhiteSpace c && allWhiteSpace s'
  end.

Definition firstChar (s : string) : option ascii :=
  match s with EmptyString => None | String c _ => Some c end.

Fixpoint lastChar (s : string) : option ascii :=
  match s with
  | EmptyString => None
  | String c EmptyString => Some c
  | String _ s' => lastChar s'
  end.

Definition notWhiteSpace (c : option ascii) : Prop :=
  match c with Some x => JS.isWhiteSpace x = false | None => True end.

(** [t] is a substring of [s]. *)
Definition substring (t s : string) : Prop :=
  exists a b, s = String.append a (String.append t b).

(** [q] occurs in [s] when case is ignored. *)
Definition containsIgnoreCase (s q : string) : Prop :=
  substring (JS.toLowerCase q) (JS.toLowerCase s).

(** An item the search for [q] finds: by name, description or some tag. *)
Definition searchHit (q : string) (p : Project.t) : Prop :=
  containsIgnoreCase (Project.name p) q
  \/ containsIgnoreCase (Project.description p) q
  \/ exists tech, In tech (Project.techStack p) /\ containsIgnoreCase tech q.

(** The 'FETS Apps' predicate in the words of the specification: an app
    one of whose tags matches a keyword, case ignored. *)
Definition spec_isFetsApp (p : Project.t) : bool :=
  String.eqb (Project.itemType p) "app"
  && existsb (fun t =>
       existsb (fun k => JS.includes (JS.toLowerCase t) (JS.toLowerCase k))
         FETS_APPS_KEYWORDS)
       (Project.techStack p).

(** The categories [filteredProjects] has a branch for. *)
Definition recognizedCategory (category : string) : bool :=
  JS.arrayIncludes ["Home"; "Resources"; "My List"; "FETS Apps"] category.

(** An optional text that is absent or empty once trimmed. *)
Definition blank (s : option string) : Prop :=
  match s with Some r => JS.trim r = "" | None => True end.

Definition ids (ps : list Project.t) : list string := List.map Project.id ps.

(** The length of a history that may be absent. *)
Definition historyLength (p : Project.t) : nat :=
  length (default [] (Project.changeHistory p)).

Definition statusKeys : list string := [IN_PROGRESS; COMPLETED; IDEA; ARCHIVED].

Definition isStatusKey (key : string) : bool := JS.arrayIncludes statusKeys key.

(** The bucket an item belongs to: its status when that is one of the
    four fixed keys, 'Other' otherwise. *)
Definition bucketKey (p : Project.t) : string :=
  if isStatusKey (Project.status p) then Project.status p else "Other".

(** A status [groupOne] can file: a fixed key, or a string that names
    no inherited property. *)
Definition groupable (p : Project.t) : bool :=
  isStatusKey (Project.status p) || negb (inherited (Project.status p)).

(** The own keys of a grouping in progress: the four fixed ones, and
    possibly 'Other'. *)
Definition groups_wf (g : gmap string (list Project.t)) : Prop :=
  (forall k, isStatusKey k = true -> is_Some (g !! k))
  /\ (forall k, is_Some (g !! k) -> isStatusKey k = true \/ k = "Other").

(** What [handleUpdateProject] does to the item at each position. *)
Definition updated (now_id now_date : Z) (data : ProjectFormData.t)
    (st : AppState) (p p' : Project.t) : Prop :=
  (editingId st = Some (Project.id p)
   /\ p' = updateProject data (newLog now_id now_date data st) p)
  \/ (editingId st <> Some (Project.id p) /\ p' = p).

(** ** Sample data *)

Definition sampleProject (id status itemType : string) (techStack : list string)
    : Project.t :=
  {| Project.id := id; Project.name := "Portal";
     Project.description := "Scheduling portal"; Project.status := status;
     Project.websiteUrl := None; Project.repoUrl := Some "https://git.example/portal";
     Project.imageUrl := None; Project.techStack := techStack;
     Project.files := "src/"; Project.createdAt := 1700000000000%Z;
     Project.itemType := itemType; Project.changeHistory := None |}.

Definition sampleUser (role : UserRole) : User.t :=
  {| User.id := "3"; User.name := "Center Manager";
     User.email := "manager@fets.dev"; User.role := role;
     User.avatarUrl := "" |}.

Definition sampleForm (name techStack itemType status repoUrl files : string)
    (changeReason : option string) : ModalState :=
  {| formData :=
       {| ProjectFormData.name := name;
          ProjectFormData.description := "Scheduling portal";
          ProjectFormData.status := status;
          ProjectFormData.websiteUrl := "";
          ProjectFormData.repoUrl := repoUrl;
          ProjectFormData.imageUrl := "";
          ProjectFormData.techStack := techStack;
          ProjectFormData.files := files;
          ProjectFormData.itemType := itemType;
          ProjectFormData.changeReason := changeReason;
          ProjectFormData.createdAt := None |};
     dateInput := "2024-01-01" |}.

Definition sampleState (ps : list Project.t) (editing : option Project.t)
    (user : option User.t) : AppState :=
  {| projects := ps; editingProject := editing; isModalOpen := false;
     currentUser := user; myList := []; activeCategory := "Home";
     searchQuery := "" |}.

(** A date parser for the samples: every input is 2024-01-01. *)
Definition sampleDate (_ : string) : option Z := Some 1704067200000%Z.

(** The technical members of the stored items. *)
Definition technicalFields (st : AppState)
    : list (list string * option string * string) :=
  List.map (fun p => (Project.techStack p, Project.repoUrl p, Project.files p))
    (projects st).

(** ** App.tsx: the rest of the state and its handlers *)

Definition setMyList (l : list string) (st : AppState) : AppState :=
  {| projects := projects st; editingProject := editingProject st;
     isModalOpen := isModalOpen st; currentUser := currentUser st;
     myList := l; activeCategory := activeCategory st;
     searchQuery := searchQuery st |}.

Definition setActiveCategory (category : string) (st : AppState) : AppState :=
  {| projects := projects st; editingProject := editingProject st;
     isModalOpen := isModalOpen st; currentUser := currentUser st;
     myList := myList st; activeCategory := category;
     searchQuery := searchQuery st |}.

Definition setSearchQuery (query : string) (st : AppState) : AppState :=
  {| projects := projects st; editingProject := editingProject st;
     isModalOpen := isModalOpen st; currentUser := currentUser st;
     myList := myList st; activeCategory := activeCategory st;
     searchQuery := query |}.

(** The updater shared by [toggleMyList] and [toggleLike] (App.tsx, lines
    135-141): [prev.includes(id) ? prev.filter(i => i !== id) : [...prev, id]]. *)
Definition toggle (id : string) (prev : list string) : list string :=
  if JS.arrayIncludes prev id
  then List.filter (fun i => negb (String.eqb i id)) prev
  else prev ++ [id].

Definition toggleMyList (id : string) (st : AppState) : AppState :=
  setMyList (toggle id (myList st)) st.

(** [canCreate] (App.tsx, line 246). *)
Definition canCreate (st : AppState) : bool :=
  roleIs (currentUser st) ADMIN || roleIs (currentUser st) DEVELOPER.

(** The list the rows are built from: [filteredProjects] on the state. *)
Definition visibleProjects (st : AppState) : list Project.t :=
  filteredProjects (projects st) (activeCategory st) (searchQuery st) (myList st).

(** The component state as a whole: [AppState] and the members the
    handlers below read and set besides. *)
Record ViewState := mkViewState
  { app : AppState;
    selectedProject : option Project.t;
    featuredProject : option Project.t;
    likedProjects : list string;
    users : list User.t }.

Definition onApp (f : AppState -> AppState) (w : ViewState) : ViewState :=
  {| app := f (app w); selectedProject := selectedProject w;
     featuredProject := featuredProject w; likedProjects := likedProjects w;
     users := users w |}.

Definition setSelectedProject (p : option Project.t) (w : ViewState) : ViewState :=
  {| app := app w; selectedProject := p;
     featuredProject := featuredProject w; likedProjects := likedProjects w;
     users := users w |}.

Definition setFeaturedProject (p : option Project.t) (w : ViewState) : ViewState :=
  {| app := app w; selectedProject := selectedProject w;
     featuredProject := p; likedProjects := likedProjects w;
     users := users w |}.

Definition setLikedProjects (l : list string) (w : ViewState) : ViewState :=
  {| app := app w; selectedProject := selectedProject w;
     featuredProject := featuredProject w; likedProjects := l;
     users := users w |}.

Definition setUsers (us : list User.t) (w : ViewState) : ViewState :=
  {| app := app w; selectedProject := selectedProject w;
     featuredProject := featuredProject w; likedProjects := likedProjects w;
     users := us |}.

Definition toggleLike (id : string) (w : ViewState) : ViewState :=
  setLikedProjects (toggle id (likedProjects w)) w.

(** [ref?.id === id] for a reference that may be [null] or [undefined]. *)
Definition refersTo (id : string) (ref : option Project.t) : bool :=
  match ref with
  | Some p => String.eqb (Project.id p) id
  | None => false
  end.

(** The items of type 'app', as the featured-item code filters them. *)
Definition appsOf (ps : list Project.t) : list Project.t :=
  List.filter (fun p => String.eqb (Project.itemType p) "app") ps.

(** The start of the effect of lines 50-80: with some app in the store
    and nothing featured yet, feature [apps[index]], where [index] is the
    value of [Math.floor(Math.random() * apps.length)]; an index outside
    the array reads [undefined]. *)
Definition initFeatured (index : nat) (w : ViewState) : ViewState :=
  let apps := appsOf (projects (app w)) in
  if (0 <? length apps)%nat && negb (isDefined (featuredProject w))
  then setFeaturedProject (apps !! index) w
  else w.

(** One tick of the rotation timer (lines 68-74). *)
Definition rotateFeatured (index : nat) (w : ViewState) : ViewState :=
  let currentApps := appsOf (projects (app w)) in
  if (0 <? length currentApps)%nat
  then setFeaturedProject (currentApps !! index) w
  else w.

(** [handleDeleteProject] (App.tsx, lines 143-155); [confirmed] is the
    answer of [window.confirm]. *)
Definition handleDeleteProject (confirmed : bool) (id : string)
    (w : ViewState) : ViewState :=
  if confirmed then
    let st := app w in
    let kept :=
      List.filter (fun p => negb (String.eqb (Project.id p) id)) (projects st) in
    let remaining :=
      List.filter (fun p => negb (String.eqb (Project.id p) id)
                            && String.eqb (Project.itemType p) "app")
        (projects st) in
    {| app :=
         setEditingProject
           (if refersTo id (editingProject st) then None else editingProject st)
           (setProjects kept st);
       selectedProject :=
         if refersTo id (selectedProject w) then None else selectedProject w;
       featuredProject :=
         if refersTo id (featuredProject w)
         then match remaining with r :: _ => Some r | [] => None end
         else featuredProject w;
       likedProjects := likedProjects w;
       users := users w |}
  else w.

(** The detail view is closed by [openEditModal] (line 227). *)
Definition openEditModalView (project : Project.t) (w : ViewState) : ViewState :=
  setSelectedProject None (onApp (openEditModal project) w).

(** [handleUpdateUserRole] (App.tsx, lines 210-212). *)
Definition handleUpdateUserRole (userId : string) (newRole : UserRole)
    (w : ViewState) : ViewState :=
  setUsers
    (List.map (fun u => if String.eqb (User.id u) userId
                        then {| User.id := User.id u; User.name := User.name u;
                                User.email := User.email u; User.role := newRole;
                                User.avatarUrl := User.avatarUrl u |}
                        else u)
       (users w)) w.

(** [handleDeleteUser] (App.tsx, lines 214-218). *)
Definition handleDeleteUser (confirmed : bool) (userId : string)
    (w : ViewState) : ViewState :=
  if confirmed
  then setUsers (List.filter (fun u => negb (String.eqb (User.id u) userId)) (users w)) w
  else w.

(** ** ProjectModal.tsx: file uploads *)

(** [s.split(sep)] for a separator of one character. *)
Fixpoint split (sep : ascii) (s : string) : list string :=
  match s with
  | EmptyString => [EmptyString]
  | String c s' =>
      if Ascii.eqb c sep then EmptyString :: split sep s'
      else match split sep s' with
           | seg :: segs => String c seg :: segs
           | [] => [String c EmptyString]
           end
  end.

(** [arr.pop()]: the last element, [undefined] for an empty array. *)
Definition pop (arr : list string) : option string := List.last (List.map Some arr) None.

(** The file a file input hands over: its name and MIME type.  The size
    only reaches the form through [toFixed], whose rendering is an
    argument of the handler. *)
Record UploadedFile := mkUploadedFile
  { fileName : string; fileType : string }.

Definition LF : string := String "010" EmptyString.

Definition withImageUrl (imageUrl : string) (d : ProjectFormData.t)
    : ProjectFormData.t :=
  {| ProjectFormData.name := ProjectFormData.name d;
     ProjectFormData.description := ProjectFormData.description d;
     ProjectFormData.status := ProjectFormData.status d;
     ProjectFormData.websiteUrl := ProjectFormData.websiteUrl d;
     ProjectFormData.repoUrl := ProjectFormData.repoUrl d;
     ProjectFormData.imageUrl := imageUrl;
     ProjectFormData.techStack := ProjectFormData.techStack d;
     ProjectFormData.files := ProjectFormData.files d;
     ProjectFormData.itemType := ProjectFormData.itemType d;
     ProjectFormData.changeReason := ProjectFormData.changeReason d;
     ProjectFormData.createdAt := ProjectFormData.createdAt d |}.

Definition withNameTechStack (name techStack : string) (d : ProjectFormData.t)
    : ProjectFormData.t :=
  {| ProjectFormData.name := name;
     ProjectFormData.description := ProjectFormData.description d;
     ProjectFormData.status := ProjectFormData.status d;
     ProjectFormData.websiteUrl := ProjectFormData.websiteUrl d;
     ProjectFormData.repoUrl := ProjectFormData.repoUrl d;
     ProjectFormData.imageUrl := ProjectFormData.imageUrl d;
     ProjectFormData.techStack := techStack;
     ProjectFormData.files := ProjectFormData.files d;
     ProjectFormData.itemType := ProjectFormData.itemType d;
     ProjectFormData.changeReason := ProjectFormData.changeReason d;
     ProjectFormData.createdAt := ProjectFormData.createdAt d |}.

(** [handleRemoveImage] (lines 110-114). *)
Definition handleRemoveImage (confirmed : bool) (d : ProjectFormData.t)
    : ProjectFormData.t :=
  if confirmed then withImageUrl "" d else d.

(** [String.prototype.toUpperCase] is a parameter: it takes some code
    units of U+0000..U+00FF out of that range or to two code units. *)
Variable toUpperCase : string -> string.

(** [file.name.split('.').pop()?.toUpperCase() || 'FILE'] (line 146). *)
Definition inferredType (fileName : string) : string :=
  JS.or_else (default "" (option_map toUpperCase (pop (split "." fileName)))) "FILE".

(** [handleFileChange] (ProjectModal.tsx, lines 116-163), once the
    [FileReader] it may start has finished.  [file] is
    [e.target.files[0]] when there is one; [kb] is the size rendered by
    [toFixed], [stamp] the date rendered by [toLocaleDateString] or
    [toLocaleString], [dataUrl] the result of the reader. *)
Definition handleFileChange (file : option UploadedFile)
    (isCoverPhoto isAssetAppend : bool) (kb stamp dataUrl : string)
    (d : ProjectFormData.t) : ProjectFormData.t :=
  match file with
  | None => d
  | Some f =>
      if isCoverPhoto then withImageUrl dataUrl d
      else if isAssetAppend then
        handleFileChange_asset
          (String.append LF (String.append "[Asset Uploaded] "
             (String.append (fileName f) (String.append " | "
                (String.append kb (String.append "KB | " stamp)))))) d
      else
        let name :=
          if JS.truthy (ProjectFormData.name d)
          then ProjectFormData.name d else fileName f in
        let techStack :=
          if JS.truthy (ProjectFormData.techStack d)
          then ProjectFormData.techStack d else inferredType (fileName f) in
        let d := withNameTechStack name techStack d in
        let d := if JS.startsWith (fileType f) "image/"
                 then withImageUrl dataUrl d else d in
        withDescriptionFiles (ProjectFormData.description d)
          (String.append "Uploaded: " (String.append stamp
             (String.append LF (String.append "File Name: "
                (String.append (fileName f) (String.append LF
                   (String.append "Size: " (String.append kb
                      (String.append " KB" (String.append LF
                         (String.append "MIME Type: " (fileType f)))))))))))) d
  end.

(** ** The initial state and the events of a session *)

Variable loadClock : nat -> Z.

(** [INITIAL_PROJECTS] ([constants.ts]); [loadClock i] is the [Date.now()]
    read for the entry of index [i] when the module is loaded. *)
Definition INITIAL_PROJECTS : list Project.t :=
[
  {| Project.id := "fets-hub";
     Project.name := "FETS HUB";
     Project.description :=
       "Centralized command center for Forun Educational & Testing Services. Manage exam schedules, client resources, and developer tools.";
     Project.status := COMPLETED;
     Project.websiteUrl := Some "https://fets.hub";
     Project.repoUrl := Some "";
     Project.imageUrl :=
       Some "https://images.unsplash.com/photo-1497215728101-856f4ea42174?auto=format&fit=crop&w=1600&q=80";
     Project.techStack := ["React"; "Vite"; "Tailwind CSS"];
     Project.files := "src/
  components/
    Dashboard.tsx
    ResourceView.tsx";
     Project.createdAt := (loadClock 0)%Z;
     Project.itemType := "app";
     Project.changeHistory := None |};
  {| Project.id := "fets-live";
     Project.name := "fets.live";
     Project.description :=
       "Real-time proctoring and educational streaming platform. Delivers secure, low-latency video feeds for remote exam monitoring.";
     Project.status := IN_PROGRESS;
     Project.websiteUrl := Some "https://fets.live";
     Project.repoUrl := Some "";
     Project.imageUrl :=
       Some "https://images.unsplash.com/photo-1531482615713-2afd69097998?auto=format&fit=crop&w=1600&q=80";
     Project.techStack := ["WebRTC"; "Node.js"; "Socket.io"];
     Project.files := "server/
  signaling.ts
client/
  ProctorView.tsx";
     Project.createdAt := (loadClock 1 - 1000000)%Z;
     Project.itemType := "app";
     Project.changeHistory := None |};
  {| Project.id := "fets-team";
     Project.name := "fets.team";
     Project.description :=
       "Internal collaboration and HR portal for Forun staff, proctors, and administrators. Manage shifts, payroll, and compliance.";
     Project.status := COMPLETED;
     Project.websiteUrl := Some "https://fets.team";
     Project.repoUrl := Some "";
     Project.imageUrl :=
       Some "https://images.unsplash.com/photo-1600880292203-757bb62b4baf?auto=format&fit=crop&w=1600&q=80";
     Project.techStack := ["Next.js"; "PostgreSQL"; "Prisma"];
     Project.files := "pages/
  roster.tsx
  payroll.tsx";
     Project.createdAt := (loadClock 2 - 2000000)%Z;
     Project.itemType := "app";
     Project.changeHistory := None |};
  {| Project.id := "fets-cloud";
     Project.name := "fets.cloud";
     Project.description :=
       "Scalable cloud infrastructure dashboard managing exam delivery instances and secure record storage.";
     Project.status := COMPLETED;
     Project.websiteUrl := Some "https://fets.cloud";
     Project.repoUrl := Some "";
     Project.imageUrl :=
       Some "https://images.unsplash.com/photo-1451187580459-43490279c0fa?auto=format&fit=crop&w=1600&q=80";
     Project.techStack := ["AWS"; "Docker"; "Kubernetes"];
     Project.files := "infra/
  terraform/
    main.tf
  k8s/
    deployment.yaml";
     Project.createdAt := (loadClock 3 - 3000000)%Z;
     Project.itemType := "app";
     Project.changeHistory := None |};
  {| Project.id := "fets-cash";
     Project.name := "fets.cash";
     Project.description :=
       "Secure payment gateway and financial transaction management system for examination fees and booking settlements.";
     Project.status := IN_PROGRESS;
     Project.websiteUrl := Some "https://fets.cash";
     Project.repoUrl := Some "";
     Project.imageUrl :=
       Some "https://images.unsplash.com/photo-1556742049-0cfed4f7a07d?auto=format&fit=crop&w=1600&q=80";
     Project.techStack := ["Stripe API"; "Express"; "React"];
     Project.files := "api/
  payments.ts
  webhooks.ts";
     Project.createdAt := (loadClock 4 - 4000000)%Z;
     Project.itemType := "app";
     Project.changeHistory := None |};
  {| Project.id := "prometric-portal";
     Project.name := "Prometric Portal";
     Project.description :=
       "Candidate scheduling and result management for Prometric exams.";
     Project.status := COMPLETED;
     Project.websiteUrl := Some "https://www.prometric.com";
     Project.repoUrl := None;
     Project.imageUrl :=
       Some "https://images.unsplash.com/photo-1454165804606-c3d57bc86b40?auto=format&fit=crop&w=1600&q=80";
     Project.techStack := ["External"; "Portal"];
     Project.files := "N/A - External Link";
     Project.createdAt := (loadClock 5 - 5000000)%Z;
     Project.itemType := "app";
     Project.changeHistory := None |};
  {| Project.id := "pearson-portal";
     Project.name := "Pearson VUE Navigator";
     Project.description :=
       "Access to Pearson VUE testing systems for administrators and test centers.";
     Project.status := COMPLETED;
     Project.websiteUrl := Some "https://home.pearsonvue.com";
     Project.repoUrl := None;
     Project.imageUrl :=
       Some "https://images.unsplash.com/photo-1517048676732-d65bc937f952?auto=format&fit=crop&w=1600&q=80";
     Project.techStack := ["External"; "Portal"];
     Project.files := "N/A - External Link";
     Project.createdAt := (loadClock 6 - 6000000)%Z;
     Project.itemType := "app";
     Project.changeHistory := None |};
  {| Project.id := "psi-portal";
     Project.name := "PSI Atlas";
     Project.description :=
       "PSI licensure and certification exam delivery platform.";
     Project.status := COMPLETED;
     Project.websiteUrl := Some "https://www.psiexams.com";
     Project.repoUrl := None;
     Project.imageUrl :=
       Some "https://images.unsplash.com/photo-1589829085413-56de8ae18c73?auto=format&fit=crop&w=1600&q=80";
     Project.techStack := ["External"; "Portal"];
     Project.files := "N/A - External Link";
     Project.createdAt := (loadClock 7 - 7000000)%Z;
     Project.itemType := "app";
     Project.changeHistory := None |};
  {| Project.id := "cert-cma";
     Project.name := "CMA USA Handbook";
     Project.description :=
       "Certified Management Accountant (CMA) exam content outlines and candidate rules.";
     Project.status := COMPLETED;
     Project.websiteUrl := None;
     Project.repoUrl := None;
     Project.imageUrl :=
       Some "https://images.unsplash.com/photo-1554224155-8d04cb21cd6c?auto=format&fit=crop&w=1600&q=80";
     Project.techStack := ["PDF"; "Prometric"; "Finance"];
     Project.files := "docs/
  CMA_Handbook_2025.pdf";
     Project.createdAt := (loadClock 8 - 100000)%Z;
     Project.itemType := "file";
     Project.changeHistory := None |};
  {| Project.id := "cert-ms";
     Project.name := "Microsoft Cert Guidelines";
     Project.description :=
       "Role-based certification paths for Azure, Microsoft 365, and Dynamics.";
     Project.status := COMPLETED;
     Project.websiteUrl := None;
     Project.repoUrl := None;
     Project.imageUrl :=
       Some "https://images.unsplash.com/photo-1633419461186-7d75fc07612d?auto=format&fit=crop&w=1600&q=80";
     Project.techStack := ["PDF"; "Pearson VUE"; "IT"];
     Project.files := "docs/
  MS_Cert_Path_2025.pdf";
     Project.createdAt := (loadClock 9 - 200000)%Z;
     Project.itemType := "file";
     Project.changeHistory := None |};
  {| Project.id := "cert-rcs";
     Project.name := "RCS England Protocols";
     Project.description :=
       "Royal College of Surgeons exam delivery standards and surgical assessment criteria.";
     Project.status := COMPLETED;
     Project.websiteUrl := None;
     Project.repoUrl := None;
     Project.imageUrl :=
       Some "https://images.unsplash.com/photo-1576091160399-112ba8d25d1d?auto=format&fit=crop&w=1600&q=80";
     Project.techStack := ["PDF"; "Pearson VUE"; "Medical"];
     Project.files := "docs/
  RCS_Exam_Regulations.pdf";
     Project.createdAt := (loadClock 10 - 300000)%Z;
     Project.itemType := "file";
     Project.changeHistory := None |};
  {| Project.id := "cert-aws";
     Project.name := "AWS Security Standards";
     Project.description :=
       "Compliance requirements for hosting AWS certification exams via fets.cloud.";
     Project.status := COMPLETED;
     Project.websiteUrl := None;
     Project.repoUrl := None;
     Project.imageUrl :=
       Some "https://images.unsplash.com/photo-1523580494863-6f3031224c94?auto=format&fit=crop&w=1600&q=80";
     Project.techStack := ["PDF"; "AWS"; "Security"];
     Project.files := "docs/
  AWS_Facility_Reqs.pdf";
     Project.createdAt := (loadClock 11 - 400000)%Z;
     Project.itemType := "file";
     Project.changeHistory := None |}
].

(** [MOCK_USERS] ([constants.ts]). *)
Definition MOCK_USERS : list User.t :=
  [ {| User.id := "1"; User.name := "System Administrator";
       User.email := "admin@fets.dev"; User.role := ADMIN;
       User.avatarUrl := "https://api.dicebear.com/7.x/avataaars/svg?seed=Admin" |};
    {| User.id := "2"; User.name := "Lead Proctor";
       User.email := "proctor@fets.dev"; User.role := DEVELOPER;
       User.avatarUrl := "https://api.dicebear.com/7.x/avataaars/svg?seed=Proctor" |};
    {| User.id := "3"; User.name := "Center Manager";
       User.email := "manager@fets.dev"; User.role := EDITOR;
       User.avatarUrl := "https://api.dicebear.com/7.x/avataaars/svg?seed=Manager" |} ].

(** The initial values of the [useState] calls (App.tsx, lines 15-45). *)
Definition initialView : ViewState :=
  {| app := {| projects := INITIAL_PROJECTS; editingProject := None;
               isModalOpen := false; currentUser := List.head MOCK_USERS;
               myList := []; activeCategory := "Home"; searchQuery := "" |};
     selectedProject := None; featuredProject := None;
     likedProjects := []; users := MOCK_USERS |}.

(** What can happen to the component: a handler is called, with the
    values the environment supplies (clock readings, the answer of a
    confirmation, a random index). *)
Inductive Event :=
| SubmitCreate (now_date now_id now_created : Z) (m : ModalState)
| SubmitEdit (now_date now_id now_log : Z) (m : ModalState)
| OpenCreate
| CloseCreate
| OpenEdit (project : Project.t)
| CloseEdit
| View (project : Project.t)
| CloseView
| Delete (confirmed : bool) (id : string)
| ToggleList (id : string)
| ToggleLike (id : string)
| Navigate (category : string)
| Search (query : string)
| InitFeatured (index : nat)
| RotateFeatured (index : nat)
| UpdateUserRole (userId : string) (newRole : UserRole)
| DeleteUser (confirmed : bool) (userId : string).

(** The state after an event.  A modal renders its form, and so can be
    submitted, only while it is open ([if (!isOpen) return null]). *)
Definition step (w : ViewState) (ev : Event) : ViewState :=
  match ev with
  | SubmitCreate now_date now_id now_created m =>
      if isModalOpen (app w)
      then onApp (fun st => fst (submitCreate now_date now_id now_created st m)) w
      else w
  | SubmitEdit now_date now_id now_log m =>
      if isDefined (editingProject (app w))
      then onApp (fun st => fst (submitEdit now_date now_id now_log st m)) w
      else w
  | OpenCreate => onApp openCreateModal w
  | CloseCreate => onApp (setIsModalOpen false) w
  | OpenEdit project => openEditModalView project w
  | CloseEdit => onApp (setEditingProject None) w
  | View project => setSelectedProject (Some project) w
  | CloseView => setSelectedProject None w
  | Delete confirmed id => handleDeleteProject confirmed id w
  | ToggleList id => onApp (toggleMyList id) w
  | ToggleLike id => toggleLike id w
  | Navigate category => onApp (setActiveCategory category) w
  | Search query => onApp (setSearchQuery query) w
  | InitFeatured index => initFeatured index w
  | RotateFeatured index => rotateFeatured index w
  | UpdateUserRole userId newRole => handleUpdateUserRole userId newRole w
  | DeleteUser confirmed userId => handleDeleteUser confirmed userId w
  end.

Definition run (w : ViewState) (events : list Event) : ViewState :=
  fold_left step events w.

(** An event as the rendered page can raise it: the item that is viewed
    or edited is one the page shows (an item of the store, the featured
    item or the item of the detail view), and a submitted status is one
    of the options of the status select. *)
Definition fromPage (w : ViewState) (ev : Event) : Prop :=
  match ev with
  | OpenEdit p | View p =>
      In p (projects (app w)) \/ featuredProject w = Some p
      \/ selectedProject w = Some p
  | SubmitCreate _ _ _ m | SubmitEdit _ _ _ m =>
      In (ProjectFormData.status (formData m)) statusKeys
  | _ => True
  end.

Fixpoint allFromPage (w : ViewState) (events : list Event) : Prop :=
  match events with
  | [] => True
  | ev :: rest => fromPage w ev /\ allFromPage (step w ev) rest
  end.


(** A tag as a save stores it: not empty, no white space at either end,
    no comma. *)
Definition cleanTag (tag : string) : Prop :=
  tag <> "" /\ JS.trim tag = tag /\ JS.includes tag "," = false.

(** The form with another change reason, as the input of line 258 sets
    it. *)
Definition withChangeReason (reason : string) (d : ProjectFormData.t)
    : ProjectFormData.t :=
  {| ProjectFormData.name := ProjectFormData.name d;
     ProjectFormData.description := ProjectFormData.description d;
     ProjectFormData.status := ProjectFormData.status d;
     ProjectFormData.websiteUrl := ProjectFormData.websiteUrl d;
     ProjectFormData.repoUrl := ProjectFormData.repoUrl d;
     ProjectFormData.imageUrl := ProjectFormData.imageUrl d;
     ProjectFormData.techStack := ProjectFormData.techStack d;
     ProjectFormData.files := ProjectFormData.files d;
     ProjectFormData.itemType := ProjectFormData.itemType d;
     ProjectFormData.changeReason := Some reason;
     ProjectFormData.createdAt := ProjectFormData.createdAt d |}.

(** The members of the form an upload of one kind leaves alone. *)
Definition sameButNameTechStackImageFiles (d d' : ProjectFormData.t) : Prop :=
  ProjectFormData.description d' = ProjectFormData.description d
  /\ ProjectFormData.status d' = ProjectFormData.status d
  /\ ProjectFormData.websiteUrl d' = ProjectFormData.websiteUrl d
  /\ ProjectFormData.repoUrl d' = ProjectFormData.repoUrl d
  /\ ProjectFormData.itemType d' = ProjectFormData.itemType d
  /\ ProjectFormData.changeReason d' = ProjectFormData.changeReason d
  /\ ProjectFormData.createdAt d' = ProjectFormData.createdAt d.

(** ** The string built-ins *)

#[local] Arguments String.append !_ _ : simpl nomatch.

Example toLowerCase_ex : JS.toLowerCase "Next.JS" = "next.js".
Proof. reflexivity. Qed.

Example trim_ex : JS.trim "  a b	" = "a b".
Proof. reflexivity. Qed.

Example split_ex : JS.split_comma "A, B,,B," = ["A"; " B"; ""; "B"; ""].
Proof. reflexivity. Qed.

Example includes_ex :
  JS.includes "Node.js" "Node" = true /\ JS.includes "node.js" "Node" = false.
Proof. split; reflexivity. Qed.

Example toString_ex :
  JS.toString 1700000000000 = "1700000000000"
  /\ JS.toString 0 = "0" /\ JS.toString (-5) = "-5".
Proof. repeat split. Qed.

Example parseTechStack_ex :
  parseTechStack " React ,, Node.js , ,React" = ["React"; "Node.js"; "React"].
Proof. reflexivity. Qed.

Lemma startsWith_spec (s t : string) :
  JS.startsWith s t = true <-> exists b, s = String.append t b.
Proof.
  revert s. induction t as [|a t IH]; intros s; simpl.
  - split; [intros _; now exists s | reflexivity].
  - destruct s as [|b s].
    + split; [discriminate | intros [r Hr]; discriminate].
    + rewrite andb_true_iff, Ascii.eqb_eq, IH. split.
      * intros [-> [r ->]]. now exists r.
      * intros [r Hr]. injection Hr as -> ->. split; [reflexivity | now exists r].
Qed.

Lemma includes_spec (s t : string) :
  JS.includes s t = true <->
  exists a b, s = String.append a (String.append t b).
Proof.
  induction s as [|c s IH]; simpl.
  - rewrite orb_false_r. destruct t as [|x t]; simpl.
    + split; [intros _; now exists "", "" | reflexivity].
    + split; [discriminate |].
      intros [[|y a] [b Hb]]; simpl in Hb; discriminate.
  - rewrite orb_true_iff, IH, startsWith_spec. split.
    + intros [[b Hb] | [a [b Hb]]].
      * exists "", b. exact Hb.
      * exists (String c a), b. simpl. now rewrite Hb.
    + intros [[|y a] [b Hb]]; simpl in Hb.
      * left. now exists b.
      * right. injection Hb as _ Hb. now exists a, b.
Qed.

Lemma split_comma_nonempty (s : string) : JS.split_comma s <> [].
Proof.
  destruct s as [|c s]; simpl; [discriminate |].
  destruct (Ascii.eqb c ","); [discriminate |].
  destruct (JS.split_comma s); discriminate.
Qed.

Lemma join_split_comma (s : string) : JS.join "," (JS.split_comma s) = s.
Proof.
  induction s as [|c s IH]; [reflexivity |].
  simpl. destruct (Ascii.eqb_spec c ",") as [-> | Hc].
  - pose proof (split_comma_nonempty s) as Hne.
    destruct (JS.split_comma s) as [|seg segs] eqn:E; [contradiction |].
    change (JS.join "," ("" :: seg :: segs))
      with (String "," (JS.join "," (seg :: segs))).
    now rewrite IH.
  - destruct (JS.split_comma s) as [|seg segs] eqn:E.
    + now destruct (split_comma_nonempty s).
    + destruct segs as [|seg' segs]; simpl in *; now rewrite <- IH.
Qed.

Lemma includes_comma_cons (c : ascii) (s : string) :
  JS.includes (String c s) "," = Ascii.eqb "," c || JS.includes s ",".
Proof.
  cbn [JS.includes JS.startsWith]. now rewrite andb_true_r.
Qed.

Lemma split_comma_no_comma (s : string) :
  Forall (fun seg => JS.includes seg "," = false) (JS.split_comma s).
Proof.
  induction s as [|c s IH]; cbn [JS.split_comma].
  - constructor; [reflexivity | constructor].
  - destruct (Ascii.eqb_spec c ",") as [-> | Hc].
    + constructor; [reflexivity | exact IH].
    + assert (Hc' : Ascii.eqb "," c = false).
      { destruct (Ascii.eqb_spec "," c); [congruence | reflexivity]. }
      destruct (JS.split_comma s) as [|seg segs].
      * constructor; [| constructor].
        rewrite includes_comma_cons, Hc'. reflexivity.
      * inversion IH as [|? ? Hseg Hsegs]; subst. constructor; [| exact Hsegs].
        rewrite includes_comma_cons, Hc'. exact Hseg.
Qed.

Lemma trimStart_spec (s : string) :
  exists l, s = String.append l (JS.trimStart s)
    /\ allWhiteSpace l = true
    /\ notWhiteSpace (firstChar (JS.trimStart s)).
Proof.
  induction s as [|c s (l & Hs & Hl & Hf)]; simpl.
  - exists "". repeat split.
  - destruct (JS.isWhiteSpace c) eqn:Hc.
    + exists (String c l). simpl. rewrite Hc, Hl, <- Hs. repeat split. exact Hf.
    + exists "". simpl. repeat split. exact Hc.
Qed.

Lemma trimEnd_spec (s : string) :
  exists r, s = String.append (JS.trimEnd s) r
    /\ allWhiteSpace r = true
    /\ notWhiteSpace (lastChar (JS.trimEnd s)).
Proof.
  induction s as [|c s (r & Hs & Hr & Hlast)]; simpl.
  - exists "". repeat split.
  - destruct (JS.isWhiteSpace c) eqn:Hc; simpl.
    + destruct (JS.trimEnd s) as [|d t] eqn:Ht; simpl.
      * exists (String c r). simpl in Hs. subst s. simpl. rewrite Hc, Hr.
        repeat split.
      * exists r. rewrite Hs. repeat split; [exact Hr | exact Hlast].
    + exists r. rewrite <- Hs. repeat split; [exact Hr |].
      destruct (JS.trimEnd s) as [|d t]; [exact Hc | exact Hlast].
Qed.

Lemma trimEnd_firstChar (s : string) :
  notWhiteSpace (firstChar s) -> notWhiteSpace (firstChar (JS.trimEnd s)).
Proof.
  destruct s as [|c s]; simpl; [trivial |].
  intros Hc. rewrite Hc. simpl. exact Hc.
Qed.

(** [trim] removes a run of white space at each end and nothing else. *)
Lemma trim_spec (s : string) :
  exists l r, s = String.append l (String.append (JS.trim s) r)
    /\ allWhiteSpace l = true /\ allWhiteSpace r = true
    /\ notWhiteSpace (firstChar (JS.trim s))
    /\ notWhiteSpace (lastChar (JS.trim s)).
Proof.
  destruct (trimStart_spec s) as (l & Hs & Hl & Hf).
  destruct (trimEnd_spec (JS.trimStart s)) as (r & Ht & Hr & Hlast).
  exists l, r. unfold JS.trim. rewrite <- Ht.
  repeat split; try assumption. now apply trimEnd_firstChar.
Qed.

Lemma toString_inj (a b : Z) : JS.toString a = JS.toString b -> a = b.
Proof.
  unfold JS.toString. intros H.
  assert (Hi : Z.to_int a = Z.to_int b).
  { pose proof (NilEmpty.isi (Z.to_int a)) as Ha.
    pose proof (NilEmpty.isi (Z.to_int b)) as Hb.
    rewrite H in Ha. congruence. }
  rewrite <- (DecimalZ.of_to a), <- (DecimalZ.of_to b). now rewrite Hi.
Qed.

Lemma toString_truthy (a : Z) : JS.truthy (JS.toString a) = true.
Proof.
  unfold JS.toString.
  destruct (NilEmpty.string_of_int (Z.to_int a)) eqn:E; [| reflexivity].
  exfalso. pose proof (NilEmpty.isi (Z.to_int a)) as Hi. rewrite E in Hi.
  simpl in Hi. destruct a as [|p|p]; simpl in Hi; try discriminate.
  injection Hi as Hi. symmetry in Hi.
  exact (DecimalPos.Unsigned.to_uint_nonnil p Hi).
Qed.

  

(** ** Grouping by status *)

Lemma arrayIncludes_In (arr : list string) (x : string) :
  JS.arrayIncludes arr x = true <-> In x arr.
Proof.
  unfold JS.arrayIncludes. rewrite existsb_exists. split.
  - intros [y [Hy Heq]]. apply String.eqb_eq in Heq. now subst.
  - intros H. exists x. split; [exact H | apply String.eqb_refl].
Qed.

Lemma isStatusKey_iff (k : string) :
  isStatusKey k = true <->
  k = IN_PROGRESS \/ k = COMPLETED \/ k = IDEA \/ k = ARCHIVED.
Proof.
  unfold isStatusKey. rewrite arrayIncludes_In. simpl. split.
  - intros [H | [H | [H | [H | []]]]]; subst; auto.
  - intros [H | [H | [H | H]]]; subst; auto 6.
Qed.

Lemma emptyGroups_lookup (k : string) :
  emptyGroups !! k = if isStatusKey k then Some [] else None.
Proof.
  unfold emptyGroups.
  destruct (isStatusKey k) eqn:E.
  - apply isStatusKey_iff in E.
    rewrite !lookup_insert.
    destruct E as [E | [E | [E | E]]]; subst k;
      repeat case_decide; try reflexivity; congruence.
  - assert (H : forall s, In s statusKeys -> s <> k).
    { intros s Hs ->. apply arrayIncludes_In in Hs.
      unfold isStatusKey in E. congruence. }
    rewrite !lookup_insert_ne by (apply H; simpl; auto 6).
    apply lookup_empty.
Qed.

Lemma emptyGroups_wf : groups_wf emptyGroups.
Proof.
  split; intros k; rewrite emptyGroups_lookup.
  - intros ->. eauto.
  - destruct (isStatusKey k); [now left | intros [? ?]; discriminate].
Qed.

Lemma emptyGroups_bucket (k : string) : bucket emptyGroups k = [].
Proof.
  unfold bucket. rewrite emptyGroups_lookup. now destruct (isStatusKey k).
Qed.

Lemma groups_wf_insert (g : gmap string (list Project.t)) k b :
  groups_wf g -> isStatusKey k = true \/ k = "Other" ->
  groups_wf (<[k := b]> g).
Proof.
  intros [Hin Hout] Hk. split; intros j.
  - intros Hj. rewrite lookup_insert. case_decide; [eauto | now apply Hin].
  - rewrite lookup_insert. case_decide; [subst; now intros _ | apply Hout].
Qed.

Lemma bucket_insert (g : gmap string (list Project.t)) k b j :
  bucket (<[k := b]> g) j = if String.eqb k j then b else bucket g j.
Proof.
  unfold bucket. rewrite lookup_insert.
  destruct (String.eqb_spec k j); case_decide; try congruence; reflexivity.
Qed.

(** One step of the grouping appends the item to its bucket and leaves
    the other buckets alone. *)
Lemma groupOne_spec (g : gmap string (list Project.t)) (p : Project.t) :
  groups_wf g -> groupable p = true ->
  exists g', groupOne g p = Some g' /\ groups_wf g'
    /\ forall key, bucket g' key =
         bucket g key ++ (if String.eqb (bucketKey p) key then [p] else []).
Proof.
  intros Hwf Hp. unfold groupOne, bucketKey.
  destruct (g !! Project.status p) as [b|] eqn:Hb.
  - assert (Hk : isStatusKey (Project.status p) = true
                 \/ Project.status p = "Other").
    { apply (proj2 Hwf). eauto. }
    eexists. split; [reflexivity |]. split; [now apply groups_wf_insert |].
    intros key. rewrite bucket_insert.
    assert (Hkey : (if isStatusKey (Project.status p)
                    then Project.status p else "Other") = Project.status p).
    { destruct (isStatusKey (Project.status p)); [reflexivity |].
      destruct Hk as [? | ->]; [discriminate | reflexivity]. }
    rewrite Hkey. destruct (String.eqb_spec (Project.status p) key) as [<- | _].
    + unfold bucket. now rewrite Hb.
    + now rewrite app_nil_r.
  - assert (Hns : isStatusKey (Project.status p) = false).
    { destruct (isStatusKey (Project.status p)) eqn:E; [| reflexivity].
      destruct (proj1 Hwf _ E) as [? ?]. congruence. }
    unfold groupable in Hp. rewrite Hns in Hp. simpl in Hp.
    apply negb_true_iff in Hp. rewrite Hp, Hns.
    eexists. split; [reflexivity |]. split.
    + apply groups_wf_insert; [| now right].
      destruct (g !! "Other"); [exact Hwf |].
      apply groups_wf_insert; [exact Hwf | now right].
    + intros key. rewrite bucket_insert.
      destruct (String.eqb_spec "Other" key) as [<- | Hne].
      * unfold bucket. destruct (g !! "Other") as [o|] eqn:Ho.
        -- now rewrite Ho.
        -- now rewrite lookup_insert_eq.
      * rewrite app_nil_r. destruct (g !! "Other"); [reflexivity |].
        unfold bucket. now rewrite lookup_insert_ne.
Qed.

Lemma groupAll_spec (ps : list Project.t) :
  forall g, groups_wf g -> forallb groupable ps = true ->
  exists g', groupAll g ps = Some g' /\ groups_wf g'
    /\ forall key, bucket g' key =
         bucket g key ++ List.filter (fun p => String.eqb (bucketKey p) key) ps.
Proof.
  induction ps as [|p ps IH]; intros g Hwf Hall; simpl in *.
  - exists g. split; [reflexivity |]. split; [exact Hwf |].
    intros key. now rewrite app_nil_r.
  - apply andb_true_iff in Hall as [Hp Hps].
    destruct (groupOne_spec g p Hwf Hp) as (g1 & -> & Hwf1 & Hb1).
    destruct (IH g1 Hwf1 Hps) as (g2 & -> & Hwf2 & Hb2).
    exists g2. split; [reflexivity |]. split; [exact Hwf2 |]. intros key.
    rewrite Hb2, Hb1, <- app_assoc. f_equal.
    now destruct (String.eqb (bucketKey p) key).
Qed.

(** ** Filtering *)

Lemma matchesQuery_spec (q : string) (p : Project.t) :
  matchesQuery (JS.toLowerCase q) p = true <-> searchHit q p.
Proof.
  unfold matchesQuery, searchHit, containsIgnoreCase, substring.
  rewrite !orb_true_iff, !includes_spec, existsb_exists.
  split.
  - intros [[H | H] | [t [Ht H]]]; [now left | right; now left |].
    right; right. exists t. split; [exact Ht | now apply includes_spec].
  - intros [H | [H | [t [Ht H]]]]; [left; now left | left; now right |].
    right. exists t. split; [exact Ht | now apply includes_spec].
Qed.

Lemma isFetsApp_spec (p : Project.t) :
  isFetsApp p = true <->
  Project.itemType p = "app"
  /\ exists t k, In t (Project.techStack p) /\ In k FETS_APPS_KEYWORDS
                 /\ substring k t.
Proof.
  unfold isFetsApp, substring.
  rewrite andb_true_iff, String.eqb_eq, existsb_exists. split.
  - intros [Hty [t [Ht Hk]]]. split; [exact Hty |].
    apply existsb_exists in Hk as [k [Hk Hinc]].
    exists t, k. repeat split; try assumption. now apply includes_spec.
  - intros [Hty [t [k [Ht [Hk Hsub]]]]]. split; [exact Hty |].
    exists t. split; [exact Ht |]. apply existsb_exists.
    exists k. split; [exact Hk | now apply includes_spec].
Qed.

Lemma truthy_nonempty (s : string) : JS.truthy s = true <-> s <> "".
Proof. destruct s; unfold JS.truthy; simpl; split; congruence. Qed.

(** C3 (amended): with an empty search query the 'FETS Apps' category
    keeps exactly the items of type 'app' one of whose tags contains a
    keyword of the fixed set as a substring, letter case included; a
    category without a branch of its own filters nothing. *)
Theorem fetsApps_category_filter (items : list Project.t)
    (myList : list string) (category : string) :
  filteredProjects items "FETS Apps" "" myList = List.filter isFetsApp items
  /\ (forall p, isFetsApp p = true <->
        Project.itemType p = "app"
        /\ exists t k, In t (Project.techStack p)
                       /\ In k FETS_APPS_KEYWORDS /\ substring k t)
  /\ (recognizedCategory category = false ->
      filteredProjects items category "" myList = items).
Proof.
  split; [reflexivity |]. split; [exact isFetsApp_spec |].
  intros Hcat. unfold recognizedCategory, JS.arrayIncludes in Hcat.
  simpl in Hcat. rewrite !orb_false_iff in Hcat.
  destruct Hcat as (H1 & H2 & H3 & H4 & _).
  unfold filteredProjects. now rewrite H1, H2, H3, H4.
Qed.

(** C4: a non-empty search query decides the result alone: whatever the
    active category and the list of favourites, the result is the
    sub-sequence of all items that contain the query, case ignored, in
    their name, their description or one of their tags. *)
Theorem search_ignores_category (items : list Project.t) (query : string)
    (category1 category2 : string) (myList1 myList2 : list string) :
  query <> "" ->
  filteredProjects items category1 query myList1
    = filteredProjects items category2 query myList2
  /\ filteredProjects items category1 query myList1
     = List.filter (matchesQuery (JS.toLowerCase query)) items
  /\ forall p, matchesQuery (JS.toLowerCase query) p = true <-> searchHit query p.
Proof.
  intros Hq. apply truthy_nonempty in Hq.
  unfold filteredProjects. rewrite Hq.
  split; [reflexivity |]. split; [reflexivity |].
  intros p. apply matchesQuery_spec.
Qed.

(** ** The save handlers *)

Lemma Forall2_map_same {A : Type} (R : A -> A -> Prop) (f : A -> A) (l : list A) :
  (forall x, R x (f x)) -> Forall2 R l (List.map f l).
Proof. intros H. induction l; simpl; constructor; auto. Qed.

Lemma handleUpdateProject_pointwise (now_id now_date : Z)
    (data : ProjectFormData.t) (st : AppState) :
  Forall2 (updated now_id now_date data st) (projects st)
    (projects (handleUpdateProject now_id now_date data st)).
Proof.
  unfold handleUpdateProject, updated.
  destruct (editingId st) as [eid|] eqn:E.
  - simpl. apply Forall2_map_same. intros p.
    destruct (String.eqb_spec (Project.id p) eid) as [-> | Hne].
    + left. split; reflexivity.
    + right. split; [congruence | reflexivity].
  - rewrite <- (map_id (projects st)) at 2. apply Forall2_map_same.
    intros p. right. split; [discriminate | reflexivity].
Qed.

Lemma trim_truthy (s : string) : JS.trim s <> "" -> JS.truthy s = true.
Proof. destruct s; [intros H; now destruct H | reflexivity]. Qed.

(** [handleSubmit] accepts a form whose name is not blank and, when an
    item is being edited, whose change reason is not blank either. *)
Lemma handleSubmit_accepts (now : Z) (props : ModalProps) (m : ModalState) :
  JS.trim (ProjectFormData.name (formData m)) <> "" ->
  isDefined (initialData props) && changeReasonMissing (formData m) = false ->
  handleSubmit now props m = Save (finalData now m).
Proof.
  intros Hname Hreason. unfold handleSubmit.
  apply truthy_nonempty in Hname. now rewrite Hname, Hreason.
Qed.

Lemma changeReason_given (d : ProjectFormData.t) (reason : string) :
  ProjectFormData.changeReason d = Some reason -> JS.trim reason <> "" ->
  changeReasonMissing d = false.
Proof.
  intros Hr Hne. unfold changeReasonMissing. rewrite Hr.
  apply truthy_nonempty in Hne. now rewrite Hne.
Qed.

Lemma submitCreate_saves (now_date now_id now_created : Z)
    (st : AppState) (m : ModalState) :
  JS.trim (ProjectFormData.name (formData m)) <> "" ->
  submitCreate now_date now_id now_created st m
  = (setIsModalOpen false
       (handleCreateProject now_id now_created (finalData now_date m) st), []).
Proof.
  intros Hname. unfold submitCreate.
  now rewrite handleSubmit_accepts by (try assumption; reflexivity).
Qed.

Lemma submitEdit_saves (now_date now_id now_log : Z)
    (st : AppState) (m : ModalState) :
  JS.trim (ProjectFormData.name (formData m)) <> "" ->
  changeReasonMissing (formData m) = false ->
  submitEdit now_date now_id now_log st m
  = (setEditingProject None
       (handleUpdateProject now_id now_log (finalData now_date m) st), []).
Proof.
  intros Hname Hreason. unfold submitEdit.
  rewrite handleSubmit_accepts; [reflexivity | assumption |].
  rewrite Hreason. apply andb_false_r.
Qed.

(** C5: a successful save in the edit modal appends exactly one entry to
    the history of the edited item, the entry carries the change reason
    that was submitted, and every item with another id is left as it
    was. *)
Theorem edit_appends_one_log_entry (st : AppState) (m : ModalState)
    (now_date now_id now_log : Z) (e : Project.t) (reason : string) :
  editingProject st = Some e ->
  Project.id e <> "" ->
  JS.trim (ProjectFormData.name (formData m)) <> "" ->
  ProjectFormData.changeReason (formData m) = Some reason ->
  JS.trim reason <> "" ->
  Forall2 (fun p p' =>
             (Project.id p = Project.id e
              /\ exists entry,
                   Project.changeHistory p'
                   = Some (default [] (Project.changeHistory p) ++ [entry])
                   /\ ChangeLogEntry.reason entry = reason
                   /\ historyLength p' = S (historyLength p))
             \/ (Project.id p <> Project.id e /\ p' = p))
    (projects st)
    (projects (fst (submitEdit now_date now_id now_log st m))).
Proof.
  intros He Hid Hname Hreason Hne.
  rewrite submitEdit_saves
    by (try assumption; now apply (changeReason_given _ reason)).
  simpl.
  assert (Heid : editingId st = Some (Project.id e)).
  { unfold editingId. rewrite He. apply truthy_nonempty in Hid. now rewrite Hid. }
  eapply Forall2_impl; [apply handleUpdateProject_pointwise |].
  intros p p' [[Hp ->] | [Hp ->]]; rewrite Heid in Hp.
  - left. split; [congruence |].
    eexists. split; [reflexivity |]. split.
    + simpl. rewrite Hreason. simpl. unfold JS.or_else.
      now rewrite (trim_truthy reason Hne).
    + unfold historyLength. simpl. rewrite length_app. simpl. lia.
  - right. split; [congruence | reflexivity].
Qed.

(** C10: [handleUpdateProject] leaves every item whose id is not the one
    being edited exactly as it was and never changes an id; when no item
    has the id being edited the state is left as it was. *)
Theorem update_frame (st : AppState) (data : ProjectFormData.t)
    (now_id now_date : Z) :
  Forall2 (fun p p' =>
             Project.id p' = Project.id p
             /\ (Some (Project.id p) <> option_map Project.id (editingProject st)
                 -> p' = p))
    (projects st) (projects (handleUpdateProject now_id now_date data st))
  /\ ((forall p, In p (projects st) ->
         Some (Project.id p) <> option_map Project.id (editingProject st)) ->
      handleUpdateProject now_id now_date data st = st).
Proof.
  assert (Heid : forall eid, editingId st = Some eid ->
                 option_map Project.id (editingProject st) = Some eid).
  { unfold editingId. intros eid. destruct (editingProject st) as [e|]; [| discriminate].
    simpl. destruct (JS.truthy (Project.id e)); [congruence | discriminate]. }
  split.
  - eapply Forall2_impl; [apply handleUpdateProject_pointwise |].
    intros p p' [[Hp ->] | [Hp ->]]; (split; [reflexivity |]).
    + intros Hne. rewrite (Heid _ Hp) in Hne. congruence.
    + reflexivity.
  - intros Hno. unfold handleUpdateProject.
    destruct (editingId st) as [eid|] eqn:E; [| reflexivity].
    rewrite (Heid eid eq_refl) in Hno.
    assert (Hmap : List.map
              (fun p => if String.eqb (Project.id p) eid
                        then updateProject data (newLog now_id now_date data st) p
                        else p) (projects st) = projects st).
    { rewrite <- (map_id (projects st)) at 2. apply map_ext_in.
      intros p Hp. destruct (String.eqb_spec (Project.id p) eid) as [Heq | _];
        [| reflexivity].
      exfalso. apply (Hno p Hp). now rewrite Heq. }
    simpl. rewrite Hmap. now destruct st.
Qed.

(** C6: whatever status the form holds, an item saved with the type
    'file' is stored with the status COMPLETED, by the create modal
    (the new first item of the store) and by the edit modal (the item
    being edited, the others being left as they were). *)
Theorem file_items_saved_completed (st : AppState) (m : ModalState)
    (now_date now_id now_aux : Z) :
  ProjectFormData.itemType (formData m) = "file" ->
  JS.trim (ProjectFormData.name (formData m)) <> "" ->
  (exists p,
      projects (fst (submitCreate now_date now_id now_aux st m))
      = p :: projects st
      /\ Project.itemType p = "file" /\ Project.status p = COMPLETED)
  /\ (changeReasonMissing (formData m) = false ->
      Forall2 (fun p p' =>
                 (editingId st = Some (Project.id p)
                  /\ Project.itemType p' = "file"
                  /\ Project.status p' = COMPLETED)
                 \/ (editingId st <> Some (Project.id p) /\ p' = p))
        (projects st)
        (projects (fst (submitEdit now_date now_id now_aux st m)))).
Proof.
  intros Hfile Hname. split.
  - rewrite submitCreate_saves by assumption. simpl.
    eexists. split; [reflexivity |]. simpl. rewrite Hfile. now split.
  - intros Hreason. rewrite submitEdit_saves by assumption. simpl.
    eapply Forall2_impl; [apply handleUpdateProject_pointwise |].
    intros p p' [[Hp ->] | [Hp ->]].
    + left. split; [exact Hp |]. simpl. rewrite Hfile. now split.
    + right. now split.
Qed.

(** C7: a submit with a blank name, and in the edit modal also a submit
    with a blank or absent change reason, is answered with one alert and
    nothing else: the whole state, and with it the store, every item and
    its history, and the flag or item that keeps the modal open, is the
    one before the submit. *)
Theorem invalid_submission_rejected (st : AppState) (m : ModalState)
    (now_date now_id now_aux : Z) :
  (JS.trim (ProjectFormData.name (formData m)) = "" ->
   submitCreate now_date now_id now_aux st m
   = (st, ["Project/File Name is required."]))
  /\ (JS.trim (ProjectFormData.name (formData m)) = ""
      \/ (editingProject st <> None
          /\ blank (ProjectFormData.changeReason (formData m))) ->
      exists message,
        message <> ""
        /\ submitEdit now_date now_id now_aux st m = (st, [message])).
Proof.
  split.
  - intros Hname. unfold submitCreate, handleSubmit. now rewrite Hname.
  - intros Hbad. unfold submitEdit, handleSubmit.
    destruct (JS.truthy (JS.trim (ProjectFormData.name (formData m)))) eqn:Hn.
    + destruct Hbad as [Hname | [Hedit Hblank]].
      { apply truthy_nonempty in Hn. contradiction. }
      destruct (editingProject st) as [e|]; [| contradiction].
      assert (Hmiss : changeReasonMissing (formData m) = true).
      { unfold changeReasonMissing.
        destruct (ProjectFormData.changeReason (formData m)) as [r|];
          [| reflexivity].
        simpl in Hblank. now rewrite Hblank. }
      simpl. rewrite Hmiss. eexists. split; [| reflexivity]. discriminate.
    + simpl. eexists. split; [| reflexivity]. discriminate.
Qed.

(** C8: the tags stored by a save are the segments of the comma
    separated input, each trimmed, the empty ones dropped, in their
    order and with their repetitions; no stored tag is the empty string
    or keeps white space at an end, and the input A, B, B gives the
    three tags A, B and B. *)
Theorem techStack_normalized (data : ProjectFormData.t) (st : AppState)
    (now_id now_aux : Z) :
  let input := ProjectFormData.techStack data in
  (exists p,
      projects (handleCreateProject now_id now_aux data st) = p :: projects st
      /\ Project.techStack p = parseTechStack input)
  /\ Forall2 (fun p p' =>
                (editingId st = Some (Project.id p)
                 /\ Project.techStack p' = parseTechStack input)
                \/ (editingId st <> Some (Project.id p) /\ p' = p))
       (projects st) (projects (handleUpdateProject now_id now_aux data st))
  /\ (exists segments,
        JS.join "," segments = input
        /\ Forall (fun seg => JS.includes seg "," = false) segments
        /\ parseTechStack input
           = List.filter (fun tag => negb (String.eqb tag ""))
               (List.map JS.trim segments))
  /\ Forall (fun tag => tag <> ""
                        /\ notWhiteSpace (firstChar tag)
                        /\ notWhiteSpace (lastChar tag))
       (parseTechStack input)
  /\ parseTechStack "A, B, B" = ["A"; "B"; "B"].
Proof.
  intros input. split; [| split; [| split; [| split]]].
  - eexists. split; reflexivity.
  - eapply Forall2_impl; [apply handleUpdateProject_pointwise |].
    intros p p' [[Hp ->] | [Hp ->]]; [left | right]; now split.
  - exists (JS.split_comma input). split; [apply join_split_comma |].
    split; [apply split_comma_no_comma |].
    unfold parseTechStack. apply filter_ext. intros tag. now destruct tag.
  - unfold parseTechStack. apply List.Forall_forall. intros tag Htag.
    apply filter_In in Htag as [Hin Htag].
    split; [now apply truthy_nonempty |].
    apply in_map_iff in Hin as [seg [<- _]].
    destruct (trim_spec seg) as (l & r & _ & _ & _ & Hfirst & Hlast).
    now split.
  - reflexivity.
Qed.

(** C2 (amended): two saves of the create form with the same input put
    two new items in front of the store; their ids are the decimal
    renderings of the two clock readings, hence distinct exactly when
    the readings differ, and after a create the ids of the store are
    pairwise distinct exactly when they were before and the rendering of
    the reading is not among them. *)
Theorem create_twice (st : AppState) (m : ModalState)
    (date1 id1 aux1 date2 id2 aux2 : Z) :
  JS.trim (ProjectFormData.name (formData m)) <> "" ->
  let st1 := fst (submitCreate date1 id1 aux1 st m) in
  let st2 := fst (submitCreate date2 id2 aux2 (openCreateModal st1) m) in
  exists p1 p2,
    projects st1 = p1 :: projects st
    /\ projects st2 = p2 :: p1 :: projects st
    /\ Project.id p1 = JS.toString id1
    /\ Project.id p2 = JS.toString id2
    /\ (Project.id p1 <> Project.id p2 <-> id1 <> id2)
    /\ (List.NoDup (ids (projects st1)) <->
        List.NoDup (ids (projects st)) /\ ~ In (JS.toString id1) (ids (projects st)))
    /\ (List.NoDup (ids (projects st2)) <->
        List.NoDup (ids (projects st1)) /\ ~ In (JS.toString id2) (ids (projects st1))).
Proof.
  intros Hname st1 st2. subst st1 st2.
  rewrite !submitCreate_saves by assumption. simpl.
  eexists. eexists. split; [reflexivity |]. split; [reflexivity |]. simpl.
  split; [reflexivity |]. split; [reflexivity |].
  split; [| split].
  - split; intros H; [congruence |]. intros Heq. apply H. now apply toString_inj.
  - rewrite List.NoDup_cons_iff. split; intros [H1 H2]; now split.
  - rewrite (List.NoDup_cons_iff (JS.toString id2)). simpl.
    split; intros [H1 H2]; now split.
Qed.

(** X26: when every status in the filtered sequence is one of the four
    fixed keys or a string that names no property inherited from
    [Object.prototype], the grouping succeeds, its keys are the four
    fixed ones and possibly 'Other', and the bucket of each key is the
    sub-sequence of the items that belong to it: every item is in the
    bucket of its own key and in no other, in the order of the filtered
    sequence. *)
Theorem grouping_partition (filtered : list Project.t) :
  forallb groupable filtered = true ->
  exists grouped,
    projectsByStatus filtered = Some grouped
    /\ (forall key, bucket grouped key
                    = List.filter (fun p => String.eqb (bucketKey p) key) filtered)
    /\ (forall p key, In p (bucket grouped key)
                      <-> In p filtered /\ bucketKey p = key)
    /\ (forall key, In key statusKeys -> is_Some (grouped !! key))
    /\ (forall key, is_Some (grouped !! key) -> In key statusKeys \/ key = "Other").
Proof.
  intros Hall.
  destruct (groupAll_spec filtered emptyGroups emptyGroups_wf Hall)
    as (grouped & Hrun & Hwf & Hbuckets).
  assert (Hb : forall key, bucket grouped key
               = List.filter (fun p => String.eqb (bucketKey p) key) filtered).
  { intros key. now rewrite Hbuckets, emptyGroups_bucket. }
  exists grouped. split; [exact Hrun |]. split; [exact Hb |].
  split; [| split].
  - intros p key. rewrite Hb, filter_In, String.eqb_eq. reflexivity.
  - intros key Hkey. apply (proj1 Hwf). now apply arrayIncludes_In.
  - intros key Hkey. destruct (proj2 Hwf key Hkey) as [H | H]; [left | now right].
    now apply arrayIncludes_In.
Qed.


(** ** Favourites and the derived list *)

Lemma toggle_In (id j : string) (prev : list string) :
  In j (toggle id prev) <->
  (j = id /\ ~ In id prev) \/ (j <> id /\ In j prev).
Proof.
  unfold toggle. destruct (JS.arrayIncludes prev id) eqn:E.
  - apply arrayIncludes_In in E. rewrite filter_In, negb_true_iff. split.
    + intros [Hj Hne]. right. split; [| exact Hj].
      intros ->. now rewrite String.eqb_refl in Hne.
    + intros [[-> Hno] | [Hne Hj]]; [contradiction |].
      split; [exact Hj |]. now apply String.eqb_neq.
  - assert (Hno : ~ In id prev).
    { intros H. apply arrayIncludes_In in H. congruence. }
    rewrite in_app_iff. simpl. split.
    + intros [Hj | [<- | []]]; [| now left].
      right. split; [| exact Hj]. intros ->. contradiction.
    + intros [[-> _] | [_ Hj]]; [right; now left | now left].
Qed.

(** X1: a toggle flips the membership of its id, leaves the membership
    of every other id as it was, and keeps a list without repetitions
    without repetitions. *)
Theorem toggle_flips_one_id (id : string) (prev : list string) :
  (In id (toggle id prev) <-> ~ In id prev)
  /\ (forall j, j <> id -> (In j (toggle id prev) <-> In j prev))
  /\ (List.NoDup prev -> List.NoDup (toggle id prev)).
Proof.
  split; [| split].
  - rewrite toggle_In. split.
    + intros [[_ H] | [H _]]; [exact H | congruence].
    + intros H. left. now split.
  - intros j Hj. rewrite toggle_In. split.
    + intros [[-> _] | [_ H]]; [congruence | exact H].
    + intros H. right. now split.
  - intros Hnd. unfold toggle. destruct (JS.arrayIncludes prev id) eqn:E.
    + now apply List.NoDup_filter.
    + apply List.NoDup_app; [exact Hnd | constructor; [intros [] | constructor] |].
      intros x Hx [<- | []]. apply arrayIncludes_In in Hx. congruence.
Qed.

Lemma filter_all {A : Type} (f : A -> bool) (l : list A) :
  (forall x, In x l -> f x = true) -> List.filter f l = l.
Proof.
  induction l as [|a l IH]; intros H; simpl; [reflexivity |].
  rewrite (H a) by now left. f_equal. apply IH. intros x Hx. apply H. now right.
Qed.

(** X2: toggling an id that is not in the list twice gives the list
    back; in general two toggles leave every membership as it was. *)
Theorem toggle_twice (id : string) (prev : list string) :
  (~ In id prev -> toggle id (toggle id prev) = prev)
  /\ (forall j, In j (toggle id (toggle id prev)) <-> In j prev).
Proof.
  split.
  - intros Hno. unfold toggle at 2.
    destruct (JS.arrayIncludes prev id) eqn:E.
    { apply arrayIncludes_In in E. contradiction. }
    unfold toggle.
    assert (Hin : JS.arrayIncludes (prev ++ [id]) id = true).
    { apply arrayIncludes_In, in_app_iff. right. now left. }
    rewrite Hin, List.filter_app. simpl. rewrite String.eqb_refl. simpl.
    rewrite app_nil_r. apply filter_all. intros x Hx.
    apply negb_true_iff, String.eqb_neq. intros ->. contradiction.
  - intros j. rewrite !toggle_In.
    destruct (string_dec j id) as [-> | Hne];
      destruct (in_dec string_dec id prev) as [Hin | Hno].
    + clear - Hin. intuition congruence.
    + clear - Hno. intuition congruence.
    + clear - Hne Hin. intuition congruence.
    + clear - Hne Hno. intuition congruence.
Qed.

Lemma filter_sublist {A : Type} (f : A -> bool) (l : list A) :
  sublist (List.filter f l) l.
Proof.
  induction l as [|a l IH]; simpl; [constructor |].
  destruct (f a); now constructor.
Qed.

Lemma filter_filter_same {A : Type} (f : A -> bool) (l : list A) :
  List.filter f (List.filter f l) = List.filter f l.
Proof.
  apply filter_all. intros x Hx. now apply filter_In in Hx.
Qed.

Lemma filter_sublist_weaker {A : Type} (f g : A -> bool) (l : list A) :
  (forall x, g x = true -> f x = true) ->
  sublist (List.filter g l) (List.filter f l).
Proof.
  intros Himp. induction l as [|a l IH]; simpl; [constructor |].
  destruct (g a) eqn:Hg.
  - rewrite (Himp a Hg). now constructor.
  - destruct (f a); [now constructor | exact IH].
Qed.

Lemma filteredProjects_is_sublist (items : list Project.t)
    (category query : string) (favourites : list string) :
  sublist (filteredProjects items category query favourites) items.
Proof.
  unfold filteredProjects.
  destruct (JS.truthy query); [apply filter_sublist |].
  repeat (match goal with
          | |- context [if ?c then _ else _] =>
              destruct c; [apply filter_sublist |]
          end).
  reflexivity.
Qed.

(** X3: whatever the category, the query and the favourites, the derived
    list is a sub-sequence of the store (no item invented, repeated or
    reordered), and deriving again from the derived list changes
    nothing. *)
Theorem filteredProjects_sublist_idempotent (items : list Project.t)
    (category query : string) (favourites : list string) :
  sublist (filteredProjects items category query favourites) items
  /\ filteredProjects (filteredProjects items category query favourites)
       category query favourites
     = filteredProjects items category query favourites.
Proof.
  split; [apply filteredProjects_is_sublist |].
  unfold filteredProjects.
  destruct (JS.truthy query); [apply filter_filter_same |].
  repeat (match goal with
          | |- context [if ?c then _ else _] =>
              destruct c; [apply filter_filter_same |]
          end).
  reflexivity.
Qed.

(** X4: without a search query the 'FETS Apps' list is a sub-sequence of
    the 'Home' list, and no item is both in the 'Home' list and in the
    'Resources' list. *)
Theorem category_lists_related (items : list Project.t)
    (favourites : list string) :
  sublist (filteredProjects items "FETS Apps" "" favourites)
    (filteredProjects items "Home" "" favourites)
  /\ forall p, ~ (In p (filteredProjects items "Home" "" favourites)
                  /\ In p (filteredProjects items "Resources" "" favourites)).
Proof.
  split.
  - apply filter_sublist_weaker. intros p Hp.
    now apply andb_true_iff in Hp as [Hp _].
  - intros p [Hhome Hres]. unfold filteredProjects in *. simpl in *.
    apply filter_In in Hhome as [_ Hhome]. apply filter_In in Hres as [_ Hres].
    apply String.eqb_eq in Hhome. apply String.eqb_eq in Hres. congruence.
Qed.

(** X5: two queries that differ by letter case only give the same
    derived list. *)
Theorem search_ignores_query_case (items : list Project.t)
    (category query1 query2 : string) (favourites : list string) :
  JS.toLowerCase query1 = JS.toLowerCase query2 ->
  filteredProjects items category query1 favourites
  = filteredProjects items category query2 favourites.
Proof.
  intros Hq. unfold filteredProjects.
  assert (Ht : JS.truthy query1 = JS.truthy query2).
  { destruct query1, query2; try reflexivity; discriminate Hq. }
  now rewrite Ht, Hq.
Qed.

(** X6: on the 'My List' page without a search query, after a toggle of
    [id] the list shows the items of the store whose id is a favourite,
    with the items of id [id] shown exactly when [id] was no favourite
    before. *)
Theorem myList_after_toggle (st : AppState) (id : string) (p : Project.t) :
  activeCategory st = "My List" ->
  searchQuery st = "" ->
  (In p (visibleProjects (toggleMyList id st)) <->
   In p (projects st)
   /\ ((Project.id p = id /\ ~ In id (myList st))
       \/ (Project.id p <> id /\ In (Project.id p) (myList st)))).
Proof.
  intros Hcat Hq. unfold visibleProjects, toggleMyList, filteredProjects.
  simpl. rewrite Hcat, Hq. simpl.
  rewrite filter_In, arrayIncludes_In, toggle_In. reflexivity.
Qed.

(** ** Deleting, users and capabilities *)




(** X8: creating an item and then deleting the id it was given leaves
    the store as it was before, provided no stored item had that id. *)
Theorem create_then_delete (w : ViewState) (m : ModalState)
    (now_date now_id now_created : Z) :
  isModalOpen (app w) = true ->
  JS.trim (ProjectFormData.name (formData m)) <> "" ->
  ~ In (JS.toString now_id) (ids (projects (app w))) ->
  projects (app (handleDeleteProject true (JS.toString now_id)
                   (step w (SubmitCreate now_date now_id now_created m))))
  = projects (app w).
Proof.
  intros Hopen Hname Hfresh. simpl. rewrite Hopen. simpl.
  rewrite submitCreate_saves by assumption. simpl.
  rewrite String.eqb_refl. simpl.
  apply filter_all. intros p Hp.
  apply negb_true_iff, String.eqb_neq. intros Heq. apply Hfresh.
  rewrite <- Heq. unfold ids. now apply in_map.
Qed.

(** X9: a role update changes the role of the users with the given id
    and nothing else in the list of users; a confirmed user deletion
    keeps, in their order, the users with another id, and a declined one
    changes nothing.  Neither touches the current user of the session,
    so the capability [canCreate] is the one before. *)
Theorem user_management_frame (w : ViewState) (userId : string)
    (newRole : UserRole) :
  Forall2 (fun u u' =>
             User.id u' = User.id u /\ User.name u' = User.name u
             /\ User.email u' = User.email u
             /\ User.avatarUrl u' = User.avatarUrl u
             /\ User.role u' = (if String.eqb (User.id u) userId
                                then newRole else User.role u))
    (users w) (users (handleUpdateUserRole userId newRole w))
  /\ sublist (users (handleDeleteUser true userId w)) (users w)
  /\ (forall u, In u (users (handleDeleteUser true userId w)) <->
                In u (users w) /\ User.id u <> userId)
  /\ handleDeleteUser false userId w = w
  /\ canCreate (app (handleUpdateUserRole userId newRole w)) = canCreate (app w)
  /\ canCreate (app (handleDeleteUser true userId w)) = canCreate (app w).
Proof.
  split; [| split; [| split; [| repeat split]]].
  - simpl. apply Forall2_map_same. intros u.
    destruct (String.eqb (User.id u) userId); simpl; repeat split.
  - apply filter_sublist.
  - intros u. simpl. rewrite filter_In, negb_true_iff, String.eqb_neq.
    reflexivity.
Qed.

(** X10: whoever is offered the creation of an item ([canCreate]) has
    both editing capabilities in the modal; the metadata capability is
    withheld from the VIEWER only and the technical one from the EDITOR
    only, so that a session without a user has both, and a VIEWER has
    the technical one. *)
Theorem capabilities_by_role (st : AppState) (initial : option Project.t) :
  let props := {| initialData := initial; modalUser := currentUser st |} in
  (canCreate st = true ->
   canEditMetadata props = true /\ canEditTechnical props = true)
  /\ (canEditMetadata props = false <->
      option_map User.role (currentUser st) = Some VIEWER)
  /\ (canEditTechnical props = false <->
      option_map User.role (currentUser st) = Some EDITOR)
  /\ (currentUser st = None ->
      canCreate st = false
      /\ canEditMetadata props = true /\ canEditTechnical props = true).
Proof.
  intros props. subst props.
  unfold canCreate, canEditMetadata, canEditTechnical, isEditor, roleIs.
  simpl. destruct (currentUser st) as [u|]; simpl.
  - destruct (User.role u); simpl; repeat split; try discriminate;
      try reflexivity; intros H; try discriminate H; try reflexivity.
  - repeat split; try discriminate; intros H; discriminate H.
Qed.

(** X11: a click on the generate button does nothing for an EDITOR (no
    alert, no request), shows the alert and sends no request when the
    name or the tech stack of the form is empty at that time, and
    otherwise sends the request with that name and tech stack.  The
    answer is applied to the form data as they are when it arrives: the
    description and the file log are the only members that can change, a
    file log that is not empty is kept, an answer overwrites the
    description and fills an empty file log, and no answer changes
    nothing; the busy flag is cleared. *)
Theorem handleGenerate_effects (props : ModalProps)
    (result : option (string * string)) (clicked prev : ProjectFormData.t) :
  let d' := snd (handleGenerate_finish result prev) in
  (isEditor props = true -> handleGenerate_start props clicked = Ignored)
  /\ (isEditor props = false ->
      ProjectFormData.name clicked = ""
      \/ ProjectFormData.techStack clicked = "" ->
      handleGenerate_start props clicked
      = Refused "Please enter Name and Tech Stack first.")
  /\ (isEditor props = false ->
      ProjectFormData.name clicked <> "" ->
      ProjectFormData.techStack clicked <> "" ->
      handleGenerate_start props clicked
      = Requested (ProjectFormData.name clicked)
          (ProjectFormData.techStack clicked))
  /\ fst (handleGenerate_finish result prev) = false
  /\ (ProjectFormData.name d' = ProjectFormData.name prev
      /\ ProjectFormData.status d' = ProjectFormData.status prev
      /\ ProjectFormData.websiteUrl d' = ProjectFormData.websiteUrl prev
      /\ ProjectFormData.repoUrl d' = ProjectFormData.repoUrl prev
      /\ ProjectFormData.imageUrl d' = ProjectFormData.imageUrl prev
      /\ ProjectFormData.techStack d' = ProjectFormData.techStack prev
      /\ ProjectFormData.itemType d' = ProjectFormData.itemType prev
      /\ ProjectFormData.changeReason d' = ProjectFormData.changeReason prev
      /\ ProjectFormData.createdAt d' = ProjectFormData.createdAt prev)
  /\ (ProjectFormData.files prev <> "" ->
      ProjectFormData.files d' = ProjectFormData.files prev)
  /\ (forall description suggestedFiles,
        result = Some (description, suggestedFiles) ->
        ProjectFormData.description d' = description
        /\ (ProjectFormData.files prev = "" ->
            ProjectFormData.files d' = suggestedFiles))
  /\ (result = None -> d' = prev)
  /\ (canEditTechnical props = true ->
      handleGenerate props result clicked
      = match handleGenerate_start props clicked with
        | Requested _ _ => (snd (handleGenerate_finish result clicked), [])
        | Refused message => (clicked, [message])
        | Ignored => (clicked, [])
        end).
Proof.
  intros d'. subst d'.
  split; [| split; [| split; [| split; [| split; [| split; [| split; [| split]]]]]]].
  - intros He. unfold handleGenerate_start, canEditTechnical. now rewrite He.
  - intros He Hempty. unfold handleGenerate_start, canEditTechnical.
    rewrite He. simpl.
    destruct Hempty as [-> | ->]; simpl; [reflexivity |].
    now rewrite orb_true_r.
  - intros He Hn Ht. unfold handleGenerate_start, canEditTechnical.
    rewrite He. simpl.
    apply truthy_nonempty in Hn. apply truthy_nonempty in Ht.
    now rewrite Hn, Ht.
  - reflexivity.
  - destruct result as [[description suggested]|]; simpl; repeat split.
  - intros Hf. destruct result as [[description suggested]|]; [| reflexivity].
    simpl. apply truthy_nonempty in Hf. unfold JS.or_else. now rewrite Hf.
  - intros description suggested ->. simpl. split; [reflexivity |].
    now intros ->.
  - now intros ->.
  - intros Hcan. unfold handleGenerate, handleGenerate_start. rewrite Hcan.
    simpl.
    destruct (negb (JS.truthy (ProjectFormData.name clicked))
              || negb (JS.truthy (ProjectFormData.techStack clicked)));
      [reflexivity |].
    now destruct result as [[description suggested]|].
Qed.

(** ** File uploads *)

Lemma split_nonempty (sep : ascii) (s : string) : split sep s <> [].
Proof.
  destruct s as [|c s]; simpl; [discriminate |].
  destruct (Ascii.eqb c sep); [discriminate |].
  destruct (split sep s); discriminate.
Qed.

Lemma join_cons (sep x : string) (segs : list string) :
  segs <> [] ->
  JS.join sep (x :: segs) = String.append x (String.append sep (JS.join sep segs)).
Proof. destruct segs; [congruence | reflexivity]. Qed.

Lemma join_split (sep : ascii) (s : string) :
  JS.join (String sep "") (split sep s) = s.
Proof.
  induction s as [|c s IH]; [reflexivity |].
  cbn [split]. destruct (Ascii.eqb_spec c sep) as [-> | Hc].
  - rewrite join_cons by apply split_nonempty. simpl. now rewrite IH.
  - pose proof (split_nonempty sep s) as Hne.
    destruct (split sep s) as [|seg segs]; [contradiction |].
    destruct segs as [|seg' segs]; simpl in *; now rewrite <- IH.
Qed.

Lemma includes_char_cons (sep c : ascii) (s : string) :
  JS.includes (String c s) (String sep "")
  = Ascii.eqb sep c || JS.includes s (String sep "").
Proof. cbn [JS.includes JS.startsWith]. now rewrite andb_true_r. Qed.

Lemma split_no_separator (sep : ascii) (s : string) :
  Forall (fun seg => JS.includes seg (String sep "") = false) (split sep s).
Proof.
  induction s as [|c s IH]; cbn [split].
  - constructor; [reflexivity | constructor].
  - destruct (Ascii.eqb_spec c sep) as [-> | Hc].
    + constructor; [reflexivity | exact IH].
    + assert (Hc' : Ascii.eqb sep c = false).
      { destruct (Ascii.eqb_spec sep c); [congruence | reflexivity]. }
      destruct (split sep s) as [|seg segs].
      * constructor; [| constructor]. now rewrite includes_char_cons, Hc'.
      * inversion IH as [|? ? Hseg Hsegs]; subst. constructor; [| exact Hsegs].
        now rewrite includes_char_cons, Hc'.
Qed.

Lemma pop_snoc (init : list string) (seg : string) :
  pop (init ++ [seg]) = Some seg.
Proof.
  unfold pop. rewrite List.map_app. simpl. apply List.last_last.
Qed.

Lemma string_app_assoc (a b c : string) :
  String.append (String.append a b) c = String.append a (String.append b c).
Proof. induction a as [|x a IH]; simpl; [reflexivity | now rewrite IH]. Qed.

Lemma join_snoc_shape (sep : ascii) (init : list string) (seg : string) :
  (init = [] /\ JS.join (String sep "") (init ++ [seg]) = seg)
  \/ (init <> []
      /\ exists pre, JS.join (String sep "") (init ++ [seg])
                     = String.append pre (String sep seg)).
Proof.
  induction init as [|x init IH]; [now left |].
  right. split; [discriminate |].
  change ((x :: init) ++ [seg]) with (x :: (init ++ [seg])).
  rewrite join_cons by (destruct init; discriminate).
  destruct IH as [[-> ->] | [_ [pre ->]]].
  - now exists x.
  - exists (String.append x (String sep pre)). simpl.
    now rewrite string_app_assoc.
Qed.

(** X12: the type inferred from a file name is the upper-cased text
    after the last dot of the name, and FILE when upper-casing gives the
    empty string; for a name without a dot that text is the whole
    name. *)
Theorem inferredType_last_segment (fileName : string) :
  exists seg,
    JS.includes seg "." = false
    /\ (fileName = seg \/ exists pre, fileName = String.append pre (String "." seg))
    /\ (JS.includes fileName "." = false -> fileName = seg)
    /\ inferredType fileName = JS.or_else (toUpperCase seg) "FILE".
Proof.
  pose proof (split_nonempty "." fileName) as Hne.
  pose proof (split_no_separator "." fileName) as Hno.
  pose proof (join_split "." fileName) as Hjoin.
  destruct (exists_last Hne) as (init & seg & E). rewrite E in Hno, Hjoin.
  exists seg.
  assert (Hseg : JS.includes seg "." = false).
  { apply List.Forall_app in Hno as [_ Hno]. now inversion Hno. }
  split; [exact Hseg |].
  assert (Hshape : (init = [] /\ fileName = seg)
                   \/ (init <> [] /\ exists pre,
                         fileName = String.append pre (String "." seg))).
  { rewrite <- Hjoin. apply join_snoc_shape. }
  split; [| split].
  - destruct Hshape as [[_ H] | [_ H]]; [now left | now right].
  - intros Hnone. destruct Hshape as [[_ H] | [_ [pre H]]]; [exact H |].
    exfalso. assert (Hinc : JS.includes fileName "." = true).
    { apply includes_spec. exists pre, seg. exact H. }
    congruence.
  - unfold inferredType. now rewrite E, pop_snoc.
Qed.

Lemma substring_here (a t b : string) :
  substring t (String.append a (String.append t b)).
Proof. now exists a, b. Qed.

Lemma substring_later (x t s : string) :
  substring t s -> substring t (String.append x s).
Proof.
  intros (a & b & ->). exists (String.append x a), b.
  symmetry. apply string_app_assoc.
Qed.

(** X13: the main upload fills the name and the type only when they are
    empty, never overwrites one that is not, sets the cover image only
    for a file of an image type, and replaces the file log by a text
    that does not depend on the log before. *)
Theorem main_upload_effects (f : UploadedFile) (kb stamp dataUrl : string)
    (d : ProjectFormData.t) :
  let d' := handleFileChange (Some f) false false kb stamp dataUrl d in
  ProjectFormData.name d'
  = (if JS.isEmpty (ProjectFormData.name d)
     then fileName f else ProjectFormData.name d)
  /\ ProjectFormData.techStack d'
     = (if JS.isEmpty (ProjectFormData.techStack d)
        then inferredType (fileName f) else ProjectFormData.techStack d)
  /\ ProjectFormData.imageUrl d'
     = (if JS.startsWith (fileType f) "image/"
        then dataUrl else ProjectFormData.imageUrl d)
  /\ (forall other,
        ProjectFormData.files
          (handleFileChange (Some f) false false kb stamp dataUrl other)
        = ProjectFormData.files d')
  /\ substring (fileName f) (ProjectFormData.files d')
  /\ sameButNameTechStackImageFiles d d'.
Proof.
  intros d'. subst d'.
  assert (Hfiles : forall x,
            ProjectFormData.files
              (handleFileChange (Some f) false false kb stamp dataUrl x)
            = String.append "Uploaded: " (String.append stamp
                (String.append LF (String.append "File Name: "
                   (String.append (fileName f) (String.append LF
                      (String.append "Size: " (String.append kb
                         (String.append " KB" (String.append LF
                            (String.append "MIME Type: " (fileType f)))))))))))).
  { intros x. unfold handleFileChange.
    destruct (JS.truthy (ProjectFormData.name x));
      destruct (JS.truthy (ProjectFormData.techStack x));
      destruct (JS.startsWith (fileType f) "image/"); reflexivity. }
  split; [| split; [| split; [| split; [| split]]]].
  - unfold handleFileChange, JS.truthy.
    destruct (JS.isEmpty (ProjectFormData.name d));
      destruct (JS.startsWith (fileType f) "image/"); reflexivity.
  - unfold handleFileChange, JS.truthy.
    destruct (JS.isEmpty (ProjectFormData.techStack d));
      destruct (JS.startsWith (fileType f) "image/"); reflexivity.
  - unfold handleFileChange.
    destruct (JS.startsWith (fileType f) "image/"); reflexivity.
  - intros other. now rewrite !Hfiles.
  - rewrite Hfiles. do 3 apply substring_later. apply substring_here.
  - unfold handleFileChange.
    destruct (JS.startsWith (fileType f) "image/"); repeat split.
Qed.

(** X14: an asset upload appends its line to the file log, so that the
    log before is the start of the log after, and changes nothing else;
    a cover upload changes the cover image only; without a file nothing
    changes; and a declined removal of the cover changes nothing. *)
Theorem other_uploads_effects (f : UploadedFile) (cover asset : bool)
    (kb stamp dataUrl : string) (d : ProjectFormData.t) :
  (exists line,
      substring (fileName f) line
      /\ handleFileChange (Some f) false true kb stamp dataUrl d
         = withDescriptionFiles (ProjectFormData.description d)
             (String.append (ProjectFormData.files d) line) d)
  /\ handleFileChange (Some f) true asset kb stamp dataUrl d
     = withImageUrl dataUrl d
  /\ handleFileChange None cover asset kb stamp dataUrl d = d
  /\ handleRemoveImage false d = d
  /\ ProjectFormData.imageUrl (handleRemoveImage true d) = "".
Proof.
  split; [| repeat split].
  exists (String.append LF (String.append "[Asset Uploaded] "
            (String.append (fileName f) (String.append " | "
               (String.append kb (String.append "KB | " stamp)))))).
  split.
  - apply substring_later. apply substring_here.
  - unfold handleFileChange, handleFileChange_asset.
    destruct (JS.truthy (ProjectFormData.files d)) eqn:E; [reflexivity |].
    destruct (ProjectFormData.files d); [reflexivity | discriminate].
Qed.

(** ** The edit form and the saved item *)

Lemma split_comma_single (t : string) :
  JS.includes t "," = false -> JS.split_comma t = [t].
Proof.
  induction t as [|c t IH]; intros Hno; [reflexivity |].
  rewrite includes_comma_cons in Hno. apply orb_false_iff in Hno as [Hc Hno].
  cbn [JS.split_comma].
  assert (Hc' : Ascii.eqb c "," = false).
  { destruct (Ascii.eqb_spec c ",") as [-> | _]; [discriminate Hc | reflexivity]. }
  now rewrite Hc', (IH Hno).
Qed.

Lemma split_comma_first (t rest : string) :
  JS.includes t "," = false ->
  JS.split_comma (String.append t (String "," rest)) = t :: JS.split_comma rest.
Proof.
  induction t as [|c t IH]; intros Hno.
  - simpl. reflexivity.
  - rewrite includes_comma_cons in Hno. apply orb_false_iff in Hno as [Hc Hno].
    assert (Hc' : Ascii.eqb c "," = false).
    { destruct (Ascii.eqb_spec c ",") as [-> | _]; [discriminate Hc | reflexivity]. }
    simpl String.append. cbn [JS.split_comma]. now rewrite Hc', (IH Hno).
Qed.

Lemma parseTechStack_after_space (x : string) :
  parseTechStack (String " " x) = parseTechStack x.
Proof.
  unfold parseTechStack. cbn [JS.split_comma].
  change (Ascii.eqb " " ",") with false. cbv iota.
  pose proof (split_comma_nonempty x) as Hne.
  destruct (JS.split_comma x) as [|h t]; [contradiction |].
  reflexivity.
Qed.

Lemma parseTechStack_first (t rest : string) :
  JS.includes t "," = false ->
  parseTechStack (String.append t (String "," rest))
  = (if JS.truthy (JS.trim t) then [JS.trim t] else []) ++ parseTechStack rest.
Proof.
  intros Hno. unfold parseTechStack. rewrite split_comma_first by assumption.
  simpl. now destruct (JS.truthy (JS.trim t)).
Qed.

Lemma parseTechStack_join (tags : list string) :
  Forall cleanTag tags -> parseTechStack (JS.join ", " tags) = tags.
Proof.
  induction tags as [|t tags IH]; intros Hclean; [reflexivity |].
  inversion Hclean as [|? ? (Hne & Htrim & Hno) Hrest]; subst.
  destruct tags as [|t2 tags].
  - simpl. unfold parseTechStack. rewrite split_comma_single by assumption.
    simpl. rewrite Htrim. apply truthy_nonempty in Hne. now rewrite Hne.
  - rewrite join_cons by discriminate.
    change (String.append ", " (JS.join ", " (t2 :: tags)))
      with (String "," (String " " (JS.join ", " (t2 :: tags)))).
    rewrite parseTechStack_first by assumption.
    rewrite parseTechStack_after_space, Htrim, (IH Hrest).
    apply truthy_nonempty in Hne. now rewrite Hne.
Qed.

(** X15: the tags of an item survive the edit form: joined with a comma
    and a space, as the form shows them, and parsed again, as a save
    does, they are the same tags, provided each is a tag as a save
    stores it (not empty, no white space at either end, no comma). *)
Theorem techStack_form_round_trip (tags : list string) :
  Forall cleanTag tags -> parseTechStack (JS.join ", " tags) = tags.
Proof. apply parseTechStack_join. Qed.

(** X16: an edit that is submitted with the form as it was opened, a
    change reason apart, gives every item with the edited id the name,
    description, file log, tags and type of the item that was opened,
    its status too unless the type is 'file', and its URLs with '' for
    an absent one; the other items are left as they were. *)
Theorem untouched_edit_keeps_content (st : AppState) (p : Project.t)
    (reason date : string) (now_date now_id now_log : Z) :
  editingProject st = Some p ->
  Project.id p <> "" ->
  JS.trim (Project.name p) <> "" ->
  JS.trim reason <> "" ->
  Forall cleanTag (Project.techStack p) ->
  let props := {| initialData := Some p; modalUser := currentUser st |} in
  let m := {| formData := withChangeReason reason (initialFormData props);
              dateInput := date |} in
  Forall2 (fun q q' =>
             (Project.id q = Project.id p
              /\ Project.id q' = Project.id q
              /\ Project.name q' = Project.name p
              /\ Project.description q' = Project.description p
              /\ Project.files q' = Project.files p
              /\ Project.techStack q' = Project.techStack p
              /\ Project.itemType q' = JS.or_else (Project.itemType p) "app"
              /\ Project.status q'
                 = (if String.eqb (JS.or_else (Project.itemType p) "app") "file"
                    then COMPLETED else Project.status p)
              /\ Project.websiteUrl q' = Some (opt_or_else (Project.websiteUrl p) "")
              /\ Project.repoUrl q' = Some (opt_or_else (Project.repoUrl p) "")
              /\ Project.imageUrl q' = Some (opt_or_else (Project.imageUrl p) ""))
             \/ (Project.id q <> Project.id p /\ q' = q))
    (projects st)
    (projects (fst (submitEdit now_date now_id now_log st m))).
Proof.
  intros He Hid Hname Hreason Hclean props m. subst props m.
  rewrite submitEdit_saves; simpl.
  2:{ exact Hname. }
  2:{ unfold changeReasonMissing. simpl.
      apply truthy_nonempty in Hreason. now rewrite Hreason. }
  assert (Heid : editingId st = Some (Project.id p)).
  { unfold editingId. rewrite He. apply truthy_nonempty in Hid. now rewrite Hid. }
  eapply Forall2_impl; [apply handleUpdateProject_pointwise |].
  intros q q' [[Hq ->] | [Hq ->]]; rewrite Heid in Hq.
  - left. simpl. rewrite (parseTechStack_join _ Hclean).
    repeat split. congruence.
  - right. split; [congruence | reflexivity].
Qed.

(** X17: a save is never refused for its date.  The created item is
    dated by the date picker when its value parses to a time other than
    0, by the clock otherwise; an edited item likewise, and it keeps its
    date when both the parsed time and the clock reading are absent or
    0. *)
Theorem createdAt_resolution (st : AppState) (m : ModalState)
    (now_date now_id now_aux : Z) :
  JS.trim (ProjectFormData.name (formData m)) <> "" ->
  let picked := Date_getTime (dateInput m) in
  let resolved (fallback : Z) : Z :=
    match picked with
    | Some t => if (t =? 0)%Z then (if (now_date =? 0)%Z then fallback else now_date)
                else t
    | None => if (now_date =? 0)%Z then fallback else now_date
    end in
  (exists p,
      projects (fst (submitCreate now_date now_id now_aux st m))
      = p :: projects st
      /\ Project.createdAt p = resolved now_aux)
  /\ (changeReasonMissing (formData m) = false ->
      Forall2 (fun q q' =>
                 (editingId st = Some (Project.id q)
                  /\ Project.createdAt q' = resolved (Project.createdAt q))
                 \/ (editingId st <> Some (Project.id q) /\ q' = q))
        (projects st)
        (projects (fst (submitEdit now_date now_id now_aux st m)))).
Proof.
  intros Hname picked resolved. subst picked resolved. split.
  - rewrite submitCreate_saves by assumption. simpl.
    eexists. split; [reflexivity |]. simpl. unfold number_or_else.
    destruct (Date_getTime (dateInput m)) as [t|];
      [destruct (t =? 0)%Z eqn:Et; [| now rewrite Et] |];
      destruct (now_date =? 0)%Z; reflexivity.
  - intros Hreason. rewrite submitEdit_saves by assumption. simpl.
    eapply Forall2_impl; [apply handleUpdateProject_pointwise |].
    intros q q' [[Hq ->] | [Hq ->]]; [left | right; now split].
    split; [exact Hq |]. simpl. unfold number_or_else.
    destruct (Date_getTime (dateInput m)) as [t|];
      [destruct (t =? 0)%Z eqn:Et; [| now rewrite Et] |];
      destruct (now_date =? 0)%Z; reflexivity.
Qed.

(** X18: a created item takes the name, description, URLs, file log and
    type of the form as they are (the name is checked trimmed and stored
    untrimmed), gets the rendering of the clock as id and an empty
    history, and the create modal is closed; nothing else of the state
    changes. *)
Theorem create_stores_form_verbatim (st : AppState) (m : ModalState)
    (now_date now_id now_aux : Z) :
  JS.trim (ProjectFormData.name (formData m)) <> "" ->
  let st' := fst (submitCreate now_date now_id now_aux st m) in
  exists p,
    projects st' = p :: projects st
    /\ Project.id p = JS.toString now_id
    /\ Project.name p = ProjectFormData.name (formData m)
    /\ Project.description p = ProjectFormData.description (formData m)
    /\ Project.websiteUrl p = Some (ProjectFormData.websiteUrl (formData m))
    /\ Project.repoUrl p = Some (ProjectFormData.repoUrl (formData m))
    /\ Project.imageUrl p = Some (ProjectFormData.imageUrl (formData m))
    /\ Project.files p = ProjectFormData.files (formData m)
    /\ Project.itemType p = ProjectFormData.itemType (formData m)
    /\ Project.changeHistory p = Some []
    /\ isModalOpen st' = false
    /\ editingProject st' = editingProject st
    /\ currentUser st' = currentUser st
    /\ myList st' = myList st
    /\ activeCategory st' = activeCategory st
    /\ searchQuery st' = searchQuery st.
Proof.
  intros Hname st'. subst st'.
  rewrite submitCreate_saves by assumption. simpl.
  eexists. repeat split.
Qed.

(** ** Invariants of a session *)

Lemma run_snoc (w : ViewState) (events : list Event) (ev : Event) :
  run w (events ++ [ev]) = step (run w events) ev.
Proof. unfold run. now rewrite fold_left_app. Qed.

(** What an event does to the store: nothing, a new first item, an
    update of the items with the edited id, or the removal of the items
    with an id. *)
Lemma step_projects (w : ViewState) (ev : Event) :
  projects (app (step w ev)) = projects (app w)
  \/ (exists now_date now_id now_created m,
        ev = SubmitCreate now_date now_id now_created m
        /\ projects (app (step w ev))
           = projects (handleCreateProject now_id now_created
                         (finalData now_date m) (app w)))
  \/ (exists now_date now_id now_log m,
        ev = SubmitEdit now_date now_id now_log m
        /\ projects (app (step w ev))
           = projects (handleUpdateProject now_id now_log
                         (finalData now_date m) (app w)))
  \/ (exists id,
        projects (app (step w ev))
        = List.filter (fun p => negb (String.eqb (Project.id p) id))
            (projects (app w))).
Proof.
  destruct ev; simpl; try (now left).
  - destruct (isModalOpen (app w)); [| now left].
    simpl. unfold submitCreate.
    destruct (handleSubmit _ _ m) as [msg | data] eqn:E; [now left |].
    right; left. exists now_date, now_id, now_created, m. split; [reflexivity |].
    unfold handleSubmit in E.
    destruct (negb _); [discriminate |]. destruct (_ && _); [discriminate |].
    now injection E as <-.
  - destruct (isDefined (editingProject (app w))); [| now left].
    simpl. unfold submitEdit.
    destruct (handleSubmit _ _ m) as [msg | data] eqn:E; [now left |].
    right; right; left. exists now_date, now_id, now_log, m.
    split; [reflexivity |].
    unfold handleSubmit in E.
    destruct (negb _); [discriminate |]. destruct (_ && _); [discriminate |].
    now injection E as <-.
  - destruct confirmed; [| now left]. right; right; right. now exists id.
  - unfold initFeatured. destruct (_ && _); now left.
  - unfold rotateFeatured. destruct (_ <? _)%nat; now left.
  - destruct confirmed; now left.
Qed.

(** A property of single items that the seed data have, that a created
    item has and that an update keeps holds for every item of every
    state of a session. *)
Lemma store_invariant (P : Project.t -> Prop) :
  Forall P INITIAL_PROJECTS ->
  (forall now_date now_id now_created m st,
      Forall P (projects st) ->
      Forall P (projects (handleCreateProject now_id now_created
                            (finalData now_date m) st))) ->
  (forall now_date m log q, P q -> P (updateProject (finalData now_date m) log q)) ->
  forall events, Forall P (projects (app (run initialView events))).
Proof.
  intros Hinit Hcreate Hupdate events.
  induction events as [|ev events IH] using rev_ind; [exact Hinit |].
  rewrite run_snoc. set (w := run initialView events) in *.
  destruct (step_projects w ev)
    as [-> | [(nd & ni & nc & m & _ & ->) | [(nd & ni & nl & m & _ & ->) | [id ->]]]].
  - exact IH.
  - now apply Hcreate.
  - unfold handleUpdateProject. destruct (editingId (app w)); [| exact IH].
    simpl. apply List.Forall_map. eapply List.Forall_impl; [| exact IH].
    intros q Hq. destruct (String.eqb (Project.id q) s); [now apply Hupdate | exact Hq].
  - apply List.Forall_forall. intros p Hp. apply filter_In in Hp as [Hp _].
    revert p Hp. now apply List.Forall_forall.
Qed.

Lemma trimStart_fixed (s : string) :
  notWhiteSpace (firstChar s) -> JS.trimStart s = s.
Proof. destruct s as [|c s]; simpl; [reflexivity |]. now intros ->. Qed.

Lemma trimEnd_fixed (s : string) :
  notWhiteSpace (lastChar s) -> JS.trimEnd s = s.
Proof.
  induction s as [|c s IH]; [reflexivity |].
  destruct s as [|d s].
  - simpl. now intros ->.
  - intros Hlast. change (lastChar (String c (String d s)))
      with (lastChar (String d s)) in Hlast.
    cbn [JS.trimEnd]. cbn [JS.trimEnd] in IH. rewrite (IH Hlast).
    simpl. now rewrite andb_false_r.
Qed.

Lemma trim_trim (s : string) : JS.trim (JS.trim s) = JS.trim s.
Proof.
  destruct (trim_spec s) as (l & r & _ & _ & _ & Hfirst & Hlast).
  unfold JS.trim at 1.
  now rewrite (trimStart_fixed _ Hfirst), (trimEnd_fixed _ Hlast).
Qed.

Lemma trim_no_comma (s : string) :
  JS.includes s "," = false -> JS.includes (JS.trim s) "," = false.
Proof.
  intros Hno. destruct (JS.includes (JS.trim s) ",") eqn:E; [| reflexivity].
  apply includes_spec in E as (a & b & E).
  destruct (trim_spec s) as (l & r & Hs & _).
  assert (Hinc : JS.includes s "," = true).
  { apply includes_spec. exists (String.append l a), (String.append b r).
    rewrite Hs, E. rewrite !string_app_assoc. reflexivity. }
  congruence.
Qed.

Lemma parseTechStack_clean (input : string) :
  Forall cleanTag (parseTechStack input).
Proof.
  unfold parseTechStack. apply List.Forall_forall. intros tag Htag.
  apply filter_In in Htag as [Hin Htag].
  apply in_map_iff in Hin as [seg [<- Hseg]].
  split; [now apply truthy_nonempty |]. split; [apply trim_trim |].
  apply trim_no_comma.
  pose proof (split_comma_no_comma input) as Hall.
  now apply (proj1 (List.Forall_forall _ _) Hall).
Qed.

(** X19: in every state of a session, whatever was submitted, an item of
    type 'file' has the status COMPLETED. *)
Theorem files_always_completed (events : list Event) :
  Forall (fun p => Project.itemType p = "file" -> Project.status p = COMPLETED)
    (projects (app (run initialView events))).
Proof.
  apply store_invariant.
  - unfold INITIAL_PROJECTS.
    repeat (constructor; [simpl; intros H; first [reflexivity | discriminate H] |]).
    constructor.
  - intros nd ni nc m st Hst. simpl. constructor; [| exact Hst].
    simpl. now intros ->.
  - intros nd m log q _. simpl. now intros ->.
Qed.

(** X20: in every state of a session every stored tag is not empty, has
    no white space at either end and holds no comma. *)
Theorem tags_always_clean (events : list Event) :
  Forall (fun p => Forall cleanTag (Project.techStack p))
    (projects (app (run initialView events))).
Proof.
  apply store_invariant.
  - unfold INITIAL_PROJECTS, cleanTag.
    repeat (constructor;
            [simpl Project.techStack;
             repeat (constructor; [repeat split; discriminate |]); constructor |]).
    constructor.
  - intros nd ni nc m st Hst. simpl. constructor; [| exact Hst].
    simpl. apply parseTechStack_clean.
  - intros nd m log q _. simpl. apply parseTechStack_clean.
Qed.

(** X21: in every state of a session every stored id is not empty, so
    that the guard on the id of the item being edited never skips the
    update of a stored item. *)
Theorem ids_never_empty (events : list Event) :
  Forall (fun p => Project.id p <> "") (projects (app (run initialView events))).
Proof.
  apply store_invariant.
  - unfold INITIAL_PROJECTS. repeat (constructor; [discriminate |]). constructor.
  - intros nd ni nc m st Hst. simpl. constructor; [| exact Hst].
    simpl. apply truthy_nonempty, toString_truthy.
  - intros nd m log q Hq. exact Hq.
Qed.

Lemma step_currentUser (w : ViewState) (ev : Event) :
  currentUser (app (step w ev)) = currentUser (app w).
Proof.
  destruct ev; simpl; try reflexivity.
  - destruct (isModalOpen (app w)); [| reflexivity]. simpl.
    unfold submitCreate. now destruct (handleSubmit _ _ m).
  - destruct (isDefined (editingProject (app w))); [| reflexivity]. simpl.
    unfold submitEdit. destruct (handleSubmit _ _ m); [reflexivity |].
    simpl. unfold handleUpdateProject. now destruct (editingId (app w)).
  - now destruct confirmed.
  - unfold initFeatured. now destruct (_ && _).
  - unfold rotateFeatured. now destruct (_ <? _)%nat.
  - now destruct confirmed.
Qed.

(** X22: no handler sets the current user: in every state of a session
    it is the first of the mock users, the administrator, whatever roles
    were changed and whatever users were deleted, so that the session
    keeps every capability. *)
Theorem session_user_is_fixed (events : list Event) :
  let st := app (run initialView events) in
  currentUser st = List.head MOCK_USERS
  /\ option_map User.role (currentUser st) = Some ADMIN
  /\ canCreate st = true
  /\ (forall initial,
        canEditMetadata {| initialData := initial; modalUser := currentUser st |}
        = true
        /\ canEditTechnical {| initialData := initial; modalUser := currentUser st |}
           = true).
Proof.
  assert (H : currentUser (app (run initialView events)) = List.head MOCK_USERS).
  { induction events as [|ev events IH] using rev_ind; [reflexivity |].
    now rewrite run_snoc, step_currentUser. }
  simpl. unfold canCreate, canEditMetadata, canEditTechnical, isEditor.
  simpl. rewrite H. repeat split.
Qed.

Lemma allFromPage_snoc (events : list Event) :
  forall w ev,
    allFromPage w (events ++ [ev])
    <-> allFromPage w events /\ fromPage (run w events) ev.
Proof.
  induction events as [|e events IH]; intros w ev; simpl.
  - split; [intros [H _]; now split | intros [_ H]; now split].
  - rewrite IH. unfold run. simpl. split; intros H; repeat split; apply H.
Qed.

Lemma statuses_from_page (events : list Event) :
  allFromPage initialView events ->
  Forall (fun p => isStatusKey (Project.status p) = true)
    (projects (app (run initialView events))).
Proof.
  induction events as [|ev events IH] using rev_ind; intros Hpage.
  - unfold INITIAL_PROJECTS. simpl.
    repeat (constructor;
            [apply isStatusKey_iff; simpl; auto |]).
    constructor.
  - apply allFromPage_snoc in Hpage as [Hpage Hev]. specialize (IH Hpage).
    rewrite run_snoc. set (w := run initialView events) in *.
    assert (Hfinal : forall nd m,
               In (ProjectFormData.status (formData m)) statusKeys ->
               isStatusKey (ProjectFormData.status (finalData nd m)) = true).
    { intros nd m Hm. simpl.
      destruct (String.eqb (ProjectFormData.itemType (formData m)) "file").
      - apply isStatusKey_iff. auto.
      - now apply arrayIncludes_In. }
    destruct (step_projects w ev)
      as [-> | [(nd & ni & nc & m & -> & ->)
               | [(nd & ni & nl & m & -> & ->) | [id ->]]]].
    + exact IH.
    + apply List.Forall_cons; [exact (Hfinal nd m Hev) | exact IH].
    + unfold handleUpdateProject. destruct (editingId (app w)); [| exact IH].
      apply List.Forall_map. eapply List.Forall_impl; [| exact IH].
      intros q Hq. destruct (String.eqb (Project.id q) s); [| exact Hq].
      exact (Hfinal nd m Hev).
    + apply List.Forall_forall. intros p Hp. apply filter_In in Hp as [Hp _].
      revert p Hp. now apply List.Forall_forall.
Qed.

(** X23: in a session whose events come from the page, so that every
    submitted status is an option of the status select, every stored
    status is one of the four fixed ones, the grouping of the list that
    is shown never raises, and every shown item is in the bucket of its
    own status. *)
Theorem grouping_never_raises_in_session (events : list Event) :
  allFromPage initialView events ->
  let st := app (run initialView events) in
  Forall (fun p => In (Project.status p) statusKeys) (projects st)
  /\ exists grouped,
       projectsByStatus (visibleProjects st) = Some grouped
       /\ forall key,
            bucket grouped key
            = List.filter (fun p => String.eqb (Project.status p) key)
                (visibleProjects st).
Proof.
  intros Hpage st. subst st.
  pose proof (statuses_from_page events Hpage) as Hall. split.
  - eapply List.Forall_impl; [| exact Hall].
    intros p Hp. now apply arrayIncludes_In.
  - set (st := app (run initialView events)) in *.
    assert (Hvis : Forall (fun p => isStatusKey (Project.status p) = true)
                     (visibleProjects st)).
    { apply List.Forall_forall. intros p Hp.
      apply (proj1 (List.Forall_forall _ _) Hall).
      apply list_elem_of_In. apply list_elem_of_In in Hp.
      exact (elem_of_sublist _ _ _ Hp (filteredProjects_is_sublist _ _ _ _)). }
    assert (Hgroupable : forallb groupable (visibleProjects st) = true).
    { apply forallb_forall. intros p Hp. unfold groupable.
      now rewrite (proj1 (List.Forall_forall _ _) Hvis p Hp). }
    destruct (groupAll_spec (visibleProjects st) emptyGroups emptyGroups_wf
                Hgroupable) as (grouped & Hrun & _ & Hb).
    exists grouped. split; [exact Hrun |]. intros key.
    rewrite Hb, emptyGroups_bucket. simpl.
    clear - Hvis. induction (visibleProjects st) as [|p l IH]; [reflexivity |].
    inversion Hvis as [|? ? Hp Hl]; subst. simpl.
    unfold bucketKey at 1. rewrite Hp.
    destruct (String.eqb (Project.status p) key); [f_equal |]; now apply IH.
Qed.






(** X25: a rotation of the featured item never changes the store; with
    an index within the apps of the store it features one of them, and
    with no app in the store it changes nothing.  The first selection
    does the same when nothing is featured yet and changes nothing
    otherwise. *)
Theorem featured_is_an_app_of_the_store (w : ViewState) (index : nat) :
  app (rotateFeatured index w) = app w
  /\ app (initFeatured index w) = app w
  /\ (appsOf (projects (app w)) = [] ->
      rotateFeatured index w = w /\ initFeatured index w = w)
  /\ (featuredProject w <> None -> initFeatured index w = w)
  /\ ((index < length (appsOf (projects (app w))))%nat ->
      exists p,
        featuredProject (rotateFeatured index w) = Some p
        /\ In p (projects (app w)) /\ Project.itemType p = "app"
        /\ (featuredProject w = None ->
            featuredProject (initFeatured index w) = Some p)).
Proof.
  unfold rotateFeatured, initFeatured.
  split; [now destruct (_ <? _)%nat |].
  split; [now destruct (_ && _) |].
  split; [intros ->; now split |].
  split.
  - intros Hf. destruct (featuredProject w); [| congruence].
    simpl. now rewrite andb_false_r.
  - intros Hlt.
    destruct (lookup_lt_is_Some_2 (appsOf (projects (app w))) index Hlt)
      as [p Hp].
    assert (Hpos : (0 <? length (appsOf (projects (app w))))%nat = true).
    { apply Nat.ltb_lt. lia. }
    rewrite Hpos. simpl. exists p. split; [exact Hp |].
    pose proof Hp as Hin.
    apply list_elem_of_lookup_2, list_elem_of_In, filter_In in Hin as [Hin Happ].
    split; [exact Hin |]. split; [now apply String.eqb_eq |].
    intros ->. simpl. exact Hp.
Qed.
End Workflow.

(** ** The properties at concrete inputs *)

(** C1: the save path reads no capability.  An EDITOR, and a VIEWER,
    edits an item and submits a form in which the tags, the repository
    URL and the file log differ from the stored ones: the store takes
    all three, although [canEditTechnical] is false for the EDITOR and
    [handleGenerate] stops on that very flag.  The asset upload, which
    the modal offers to an EDITOR, changes the file log the same way. *)
Theorem restricted_roles_overwrite_technical_fields :
  let p := sampleProject "fets-hub" "Completed" "app" ["React"] in
  let m := sampleForm "Portal" "Rust" "app" "Completed"
             "https://git.example/fork" "fork/" (Some "typo") in
  let unchanged := sampleForm "Portal" "React" "app" "Completed"
                     "https://git.example/portal" "src/" (Some "typo") in
  let uploaded :=
    {| formData := handleFileChange_asset " [Asset Uploaded] a.png | 1.0KB"
                     (formData unchanged);
       dateInput := dateInput unchanged |} in
  let editor := Some (sampleUser EDITOR) in
  let viewer := Some (sampleUser VIEWER) in
  technicalFields (sampleState [p] (Some p) editor)
    = [(["React"], Some "https://git.example/portal", "src/")]
  /\ canEditTechnical {| initialData := Some p; modalUser := editor |} = false
  /\ handleGenerate {| initialData := Some p; modalUser := editor |}
       (Some ("generated", "generated/")) (formData m) = (formData m, [])
  /\ technicalFields
       (fst (submitEdit "Completed" sampleDate 1 2 3
               (sampleState [p] (Some p) editor) m))
     = [(["Rust"], Some "https://git.example/fork", "fork/")]
  /\ canEditMetadata {| initialData := Some p; modalUser := editor |} = true
  /\ technicalFields
       (fst (submitEdit "Completed" sampleDate 1 2 3
               (sampleState [p] (Some p) editor) uploaded))
     = [(["React"], Some "https://git.example/portal",
         "src/ [Asset Uploaded] a.png | 1.0KB")]
  /\ canEditMetadata {| initialData := Some p; modalUser := viewer |} = false
  /\ technicalFields
       (fst (submitEdit "Completed" sampleDate 1 2 3
               (sampleState [p] (Some p) viewer) m))
     = [(["Rust"], Some "https://git.example/fork", "fork/")].
Proof. repeat split. Qed.

(** C2, as stated, fails: two saves of the same form at the same clock
    reading leave two items with the same id in the store. *)
Lemma create_twice_same_reading :
  let m := sampleForm "X" "A, B, B" "app" "Idea" "" "" (Some "") in
  let st := sampleState [] None (Some (sampleUser ADMIN)) in
  let st1 := fst (submitCreate "Completed" sampleDate 5 1700000000000 5 st m) in
  let st2 := fst (submitCreate "Completed" sampleDate 5 1700000000000 5
                    (openCreateModal st1) m) in
  ids (projects st2) = ["1700000000000"; "1700000000000"].
Proof. reflexivity. Qed.

Lemma create_twice_witness :
  let m := sampleForm "X" "A, B, B" "app" "Idea" "" "" (Some "") in
  let st := sampleState [sampleProject "fets-hub" "Completed" "app" ["React"]]
              None (Some (sampleUser ADMIN)) in
  let st1 := fst (submitCreate "Completed" sampleDate 5 1700000000000 5 st m) in
  let st2 := fst (submitCreate "Completed" sampleDate 5 1700000000001 5
                    (openCreateModal st1) m) in
  JS.trim (ProjectFormData.name (formData m)) <> ""
  /\ exists p1 p2,
       projects st1 = p1 :: projects st
       /\ projects st2 = p2 :: p1 :: projects st
       /\ Project.id p1 = JS.toString 1700000000000
       /\ Project.id p2 = JS.toString 1700000000001
       /\ (Project.id p1 <> Project.id p2 <-> 1700000000000%Z <> 1700000000001%Z)
       /\ (List.NoDup (ids (projects st1)) <->
           List.NoDup (ids (projects st))
           /\ ~ In (JS.toString 1700000000000) (ids (projects st)))
       /\ (List.NoDup (ids (projects st2)) <->
           List.NoDup (ids (projects st1))
           /\ ~ In (JS.toString 1700000000001) (ids (projects st1))).
Proof.
  split; [discriminate |].
  apply (create_twice "Completed" sampleDate). discriminate.
Defined.

(** C3, as stated, fails: a tag that differs from a keyword by letter
    case only is a match when case is ignored, and the category filter
    does not keep the item. *)
Lemma fetsApps_case_sensitive :
  let p := sampleProject "p1" "Completed" "app" ["react"] in
  filteredProjects [p] "FETS Apps" "" [] = []
  /\ List.filter spec_isFetsApp [p] = [p].
Proof. split; reflexivity. Qed.

Lemma fetsApps_category_filter_witness :
  let items := [sampleProject "p1" "Completed" "app" ["React"];
                sampleProject "p2" "Completed" "file" ["PDF"]] in
  recognizedCategory "SOP" = false
  /\ filteredProjects items "SOP" "" [] = items.
Proof.
  split; [reflexivity |].
  apply (proj2 (proj2 (fetsApps_category_filter _ [] "SOP"))). reflexivity.
Defined.

Lemma search_ignores_category_witness :
  let items := [sampleProject "p1" "Completed" "app" ["React"];
                sampleProject "p2" "Completed" "file" ["PDF"]] in
  "PORT" <> ""
  /\ filteredProjects items "Home" "PORT" []
     = filteredProjects items "Resources" "PORT" ["p2"]
  /\ filteredProjects items "Home" "PORT" []
     = List.filter (matchesQuery (JS.toLowerCase "PORT")) items
  /\ forall p, matchesQuery (JS.toLowerCase "PORT") p = true <-> searchHit "PORT" p.
Proof.
  split; [discriminate |].
  apply (search_ignores_category _ "PORT" "Home" "Resources" [] ["p2"]).
  discriminate.
Defined.

Lemma edit_appends_one_log_entry_witness :
  let p := sampleProject "fets-hub" "Completed" "app" ["React"] in
  let q := sampleProject "cert-cma" "Completed" "file" ["PDF"] in
  let st := sampleState [p; q] (Some p) (Some (sampleUser ADMIN)) in
  let m := sampleForm "Portal" "React, Vite" "app" "In Progress" "" "src/"
             (Some "Fixed typo") in
  let st' := fst (submitEdit "Completed" sampleDate 1 2 3 st m) in
  (editingProject st = Some p
   /\ Project.id p <> ""
   /\ JS.trim (ProjectFormData.name (formData m)) <> ""
   /\ ProjectFormData.changeReason (formData m) = Some "Fixed typo"
   /\ JS.trim "Fixed typo" <> "")
  /\ Forall2 (fun x x' =>
                (Project.id x = Project.id p
                 /\ exists entry,
                      Project.changeHistory x'
                      = Some (default [] (Project.changeHistory x) ++ [entry])
                      /\ ChangeLogEntry.reason entry = "Fixed typo"
                      /\ historyLength x' = S (historyLength x))
                \/ (Project.id x <> Project.id p /\ x' = x))
       (projects st) (projects st')
  /\ List.map historyLength (projects st') = [1; 0].
Proof.
  split; [repeat split; discriminate |].
  split; [| reflexivity].
  apply (edit_appends_one_log_entry "Completed" sampleDate _ _ 1 2 3 _ "Fixed typo");
    try reflexivity; discriminate.
Defined.

Lemma file_items_saved_completed_witness :
  let p := sampleProject "cert-cma" "Completed" "file" ["PDF"] in
  let st := sampleState [p] (Some p) (Some (sampleUser ADMIN)) in
  let m := sampleForm "Handbook" "PDF" "file" "Idea" "" "docs/"
             (Some "New edition") in
  (ProjectFormData.itemType (formData m) = "file"
   /\ JS.trim (ProjectFormData.name (formData m)) <> "")
  /\ (exists x,
        projects (fst (submitCreate "Completed" sampleDate 1 2 3 st m))
        = x :: projects st
        /\ Project.itemType x = "file" /\ Project.status x = "Completed")
  /\ (changeReasonMissing (formData m) = false ->
      Forall2 (fun x x' =>
                 (editingId st = Some (Project.id x)
                  /\ Project.itemType x' = "file"
                  /\ Project.status x' = "Completed")
                 \/ (editingId st <> Some (Project.id x) /\ x' = x))
        (projects st)
        (projects (fst (submitEdit "Completed" sampleDate 1 2 3 st m)))).
Proof.
  split; [split; [reflexivity | discriminate] |].
  apply (file_items_saved_completed "Completed" sampleDate);
    [reflexivity | discriminate].
Defined.

Lemma invalid_submission_rejected_witness :
  let p := sampleProject "fets-hub" "Completed" "app" ["React"] in
  let st := sampleState [p] (Some p) (Some (sampleUser ADMIN)) in
  let unnamed := sampleForm "   " "React" "app" "Idea" "" "src/" (Some "why") in
  let unexplained := sampleForm "Portal" "React" "app" "Idea" "" "src/" (Some " ") in
  JS.trim (ProjectFormData.name (formData unnamed)) = ""
  /\ submitCreate "Completed" sampleDate 1 2 3 st unnamed
     = (st, ["Project/File Name is required."])
  /\ (editingProject st <> None
      /\ blank (ProjectFormData.changeReason (formData unexplained)))
  /\ exists message,
       message <> ""
       /\ submitEdit "Completed" sampleDate 1 2 3 st unexplained = (st, [message]).
Proof.
  split; [reflexivity |].
  split.
  - apply (proj1 (invalid_submission_rejected "Completed" sampleDate
                    _ _ 1 2 3)).
    reflexivity.
  - split; [split; [discriminate | reflexivity] |].
    apply (proj2 (invalid_submission_rejected "Completed" sampleDate
                    _ _ 1 2 3)).
    right. split; [discriminate | reflexivity].
Defined.

(** C9: the catch-all branch of [projectsByStatus] is meant to file
    every status outside the four fixed keys under 'Other', and misses
    the statuses that name a property every object inherits: for such
    an item [grouped[p.status]] is the inherited value, truthy and
    without [push], so that the grouping raises instead of giving a
    partition. *)
Lemma grouping_raises_on_inherited_key :
  projectsByStatus "Idea" "In Progress" "Completed" "Archived"
    [sampleProject "p1" "constructor" "app" ["React"]] = None.
Proof. reflexivity. Qed.

Lemma grouping_partition_witness :
  let a := sampleProject "p1" "Completed" "app" ["React"] in
  let b := sampleProject "p2" "On Hold" "app" ["Vue"] in
  let c := sampleProject "p3" "Completed" "file" ["PDF"] in
  let d := sampleProject "p4" "Other" "app" [] in
  let key p := bucketKey "Idea" "In Progress" "Completed" "Archived" p in
  forallb (groupable "Idea" "In Progress" "Completed" "Archived") [a; b; c; d]
  = true
  /\ exists grouped,
       projectsByStatus "Idea" "In Progress" "Completed" "Archived" [a; b; c; d]
       = Some grouped
       /\ (forall k, bucket grouped k
                     = List.filter (fun p => String.eqb (key p) k) [a; b; c; d])
       /\ (forall p k, In p (bucket grouped k)
                       <-> In p [a; b; c; d] /\ key p = k)
       /\ (forall k, In k (statusKeys "Idea" "In Progress" "Completed" "Archived")
                     -> is_Some (grouped !! k))
       /\ (forall k, is_Some (grouped !! k) ->
             In k (statusKeys "Idea" "In Progress" "Completed" "Archived")
             \/ k = "Other").
Proof.
  split; [reflexivity |].
  apply (grouping_partition "Idea" "In Progress" "Completed" "Archived").
  reflexivity.
Defined.

Example grouping_sample :
  let a := sampleProject "p1" "Completed" "app" ["React"] in
  let b := sampleProject "p2" "On Hold" "app" ["Vue"] in
  let c := sampleProject "p3" "Completed" "file" ["PDF"] in
  let d := sampleProject "p4" "Other" "app" [] in
  option_map (fun g => (bucket g "Completed", bucket g "Idea", bucket g "Other"))
    (projectsByStatus "Idea" "In Progress" "Completed" "Archived" [a; b; c; d])
  = Some ([a; c], [], [b; d]).
Proof. vm_compute. reflexivity. Qed.

(** ** The further properties at concrete inputs *)

Lemma search_ignores_query_case_witness :
  let items := [sampleProject "p1" "Completed" "app" ["React"];
                sampleProject "p2" "Completed" "file" ["PDF"]] in
  JS.toLowerCase "PORTAL" = JS.toLowerCase "portal"
  /\ filteredProjects items "Home" "PORTAL" []
     = filteredProjects items "Home" "portal" [].
Proof.
  split; [reflexivity |].
  apply (search_ignores_query_case _ "Home" "PORTAL" "portal" []). reflexivity.
Defined.

Lemma myList_after_toggle_witness :
  let p := sampleProject "p1" "Completed" "app" ["React"] in
  let q := sampleProject "p2" "Completed" "file" ["PDF"] in
  let st := setActiveCategory "My List" (setMyList ["p2"] (sampleState [p; q] None None)) in
  (activeCategory st = "My List" /\ searchQuery st = "")
  /\ (In p (visibleProjects (toggleMyList "p1" st)) <->
      In p (projects st)
      /\ ((Project.id p = "p1" /\ ~ In "p1" (myList st))
          \/ (Project.id p <> "p1" /\ In (Project.id p) (myList st))))
  /\ visibleProjects (toggleMyList "p1" st) = [p; q]
  /\ visibleProjects (toggleMyList "p2" st) = [].
Proof.
  split; [split; reflexivity |].
  split; [| split; reflexivity].
  apply (myList_after_toggle _ "p1"); reflexivity.
Defined.

Lemma create_then_delete_witness :
  let p := sampleProject "fets-hub" "Completed" "app" ["React"] in
  let w := {| app := setIsModalOpen true (sampleState [p] None (Some (sampleUser ADMIN)));
              selectedProject := None; featuredProject := Some p;
              likedProjects := []; users := [sampleUser ADMIN] |} in
  let m := sampleForm " X " "A, B, B" "app" "Idea" "" "" (Some "") in
  (isModalOpen (app w) = true
   /\ JS.trim (ProjectFormData.name (formData m)) <> ""
   /\ ~ In (JS.toString 1700000000000) (ids (projects (app w))))
  /\ projects (app (handleDeleteProject true (JS.toString 1700000000000)
                      (step "Completed" sampleDate w
                         (SubmitCreate 5 1700000000000 5 m))))
     = projects (app w).
Proof.
  split.
  - split; [reflexivity |]. split; [discriminate |].
    intros [H | []]. discriminate H.
  - apply (create_then_delete "Completed" sampleDate).
    + reflexivity.
    + discriminate.
    + intros [H | []]. discriminate H.
Defined.

Lemma techStack_form_round_trip_witness :
  Forall cleanTag ["React"; "Tailwind CSS"; "Node.js"]
  /\ JS.join ", " ["React"; "Tailwind CSS"; "Node.js"]
     = "React, Tailwind CSS, Node.js"
  /\ parseTechStack (JS.join ", " ["React"; "Tailwind CSS"; "Node.js"])
     = ["React"; "Tailwind CSS"; "Node.js"].
Proof.
  assert (H : Forall cleanTag ["React"; "Tailwind CSS"; "Node.js"]).
  { repeat (constructor; [repeat split; discriminate |]). constructor. }
  split; [exact H |]. split; [reflexivity |].
  exact (techStack_form_round_trip _ H).
Defined.

Lemma untouched_edit_keeps_content_witness :
  let p := sampleProject "cert-cma" "Idea" "file" ["PDF"; "Finance"] in
  let q := sampleProject "fets-hub" "Completed" "app" ["React"] in
  let st := sampleState [q; p] (Some p) (Some (sampleUser ADMIN)) in
  let props := {| initialData := Some p; modalUser := currentUser st |} in
  let m := {| formData := withChangeReason "review" (initialFormData "Idea" props);
              dateInput := "2024-01-01" |} in
  (editingProject st = Some p
   /\ Project.id p <> ""
   /\ JS.trim (Project.name p) <> ""
   /\ JS.trim "review" <> ""
   /\ Forall cleanTag (Project.techStack p))
  /\ Forall2 (fun x x' =>
                (Project.id x = Project.id p
                 /\ Project.id x' = Project.id x
                 /\ Project.name x' = Project.name p
                 /\ Project.description x' = Project.description p
                 /\ Project.files x' = Project.files p
                 /\ Project.techStack x' = Project.techStack p
                 /\ Project.itemType x' = JS.or_else (Project.itemType p) "app"
                 /\ Project.status x'
                    = (if String.eqb (JS.or_else (Project.itemType p) "app") "file"
                       then "Completed" else Project.status p)
                 /\ Project.websiteUrl x' = Some (opt_or_else (Project.websiteUrl p) "")
                 /\ Project.repoUrl x' = Some (opt_or_else (Project.repoUrl p) "")
                 /\ Project.imageUrl x' = Some (opt_or_else (Project.imageUrl p) ""))
                \/ (Project.id x <> Project.id p /\ x' = x))
       (projects st)
       (projects (fst (submitEdit "Completed" sampleDate 1 2 3 st m))).
Proof.
  assert (H : Forall cleanTag ["PDF"; "Finance"]).
  { repeat (constructor; [repeat split; discriminate |]). constructor. }
  split.
  - split; [reflexivity |]. split; [discriminate |]. split; [discriminate |].
    split; [discriminate | exact H].
  - apply (untouched_edit_keeps_content "Idea" "Completed" sampleDate);
      try discriminate; [reflexivity | exact H].
Defined.

Lemma createdAt_resolution_witness :
  let st := sampleState [sampleProject "p1" "Idea" "app" []]
              (Some (sampleProject "p1" "Idea" "app" []))
              (Some (sampleUser ADMIN)) in
  let m := sampleForm "X" "A" "app" "Idea" "" "" (Some "why") in
  let epoch (_ : string) : option Z := Some 0%Z in
  let created f now := List.map Project.createdAt
                         (projects (fst (submitCreate "Completed" f now 8 9 st m))) in
  let edited f now := List.map Project.createdAt
                        (projects (fst (submitEdit "Completed" f now 8 9 st m))) in
  JS.trim (ProjectFormData.name (formData m)) <> ""
  /\ (created sampleDate 7%Z, created epoch 7%Z, created epoch 0%Z)
     = ([1704067200000%Z; 1700000000000%Z], [7%Z; 1700000000000%Z],
        [9%Z; 1700000000000%Z])
  /\ (edited sampleDate 7%Z, edited epoch 7%Z, edited epoch 0%Z)
     = ([1704067200000%Z], [7%Z], [1700000000000%Z])
  /\ (exists p,
        projects (fst (submitCreate "Completed" epoch 0 8 9 st m))
        = p :: projects st
        /\ Project.createdAt p = 9%Z)
  /\ (changeReasonMissing (formData m) = false ->
      Forall2 (fun q q' =>
                 (editingId st = Some (Project.id q)
                  /\ Project.createdAt q' = Project.createdAt q)
                 \/ (editingId st <> Some (Project.id q) /\ q' = q))
        (projects st)
        (projects (fst (submitEdit "Completed" epoch 0 8 9 st m)))).
Proof.
  split; [discriminate |]. split; [reflexivity |]. split; [reflexivity |].
  apply (createdAt_resolution "Completed" (fun _ => Some 0%Z)
           (sampleState [sampleProject "p1" "Idea" "app" []]
              (Some (sampleProject "p1" "Idea" "app" []))
              (Some (sampleUser ADMIN)))
           (sampleForm "X" "A" "app" "Idea" "" "" (Some "why")) 0 8 9).
  discriminate.
Defined.

Lemma create_stores_form_verbatim_witness :
  let st := sampleState [] None (Some (sampleUser ADMIN)) in
  let m := sampleForm " X " "A" "app" "Idea" "" "" (Some "") in
  let st' := fst (submitCreate "Completed" sampleDate 7 8 9 st m) in
  JS.trim (ProjectFormData.name (formData m)) <> ""
  /\ List.map Project.name (projects st') = [" X "]
  /\ exists p,
       projects st' = p :: projects st
       /\ Project.id p = JS.toString 8
       /\ Project.name p = ProjectFormData.name (formData m)
       /\ Project.description p = ProjectFormData.description (formData m)
       /\ Project.websiteUrl p = Some (ProjectFormData.websiteUrl (formData m))
       /\ Project.repoUrl p = Some (ProjectFormData.repoUrl (formData m))
       /\ Project.imageUrl p = Some (ProjectFormData.imageUrl (formData m))
       /\ Project.files p = ProjectFormData.files (formData m)
       /\ Project.itemType p = ProjectFormData.itemType (formData m)
       /\ Project.changeHistory p = Some []
       /\ isModalOpen st' = false
       /\ editingProject st' = editingProject st
       /\ currentUser st' = currentUser st
       /\ myList st' = myList st
       /\ activeCategory st' = activeCategory st
       /\ searchQuery st' = searchQuery st.
Proof.
  split; [discriminate |]. split; [reflexivity |].
  apply (create_stores_form_verbatim "Completed" sampleDate). discriminate.
Defined.

Lemma grouping_never_raises_in_session_witness :
  let clock (_ : nat) : Z := 1700000000000%Z in
  let w0 := initialView "In Progress" "Completed" clock in
  let m := sampleForm "Roster" "React, Vite" "app" "Idea" "" "" (Some "") in
  let events := [OpenCreate; SubmitCreate 5 1700000000500 5 m;
                 Delete true "fets-hub"; Navigate "FETS Apps"] in
  let st := app (run "Completed" sampleDate w0 events) in
  allFromPage "Idea" "In Progress" "Completed" "Archived" sampleDate w0 events
  /\ List.map Project.id (visibleProjects st)
     = ["1700000000500"; "fets-live"; "fets-team"; "fets-cash"]
  /\ Forall (fun p => In (Project.status p)
                        (statusKeys "Idea" "In Progress" "Completed" "Archived"))
       (projects st)
  /\ exists grouped,
       projectsByStatus "Idea" "In Progress" "Completed" "Archived"
         (visibleProjects st) = Some grouped
       /\ forall key,
            bucket grouped key
            = List.filter (fun p => String.eqb (Project.status p) key)
                (visibleProjects st).
Proof.
  assert (H : allFromPage "Idea" "In Progress" "Completed" "Archived" sampleDate
                (initialView "In Progress" "Completed" (fun _ => 1700000000000%Z))
                [OpenCreate;
                 SubmitCreate 5 1700000000500 5
                   (sampleForm "Roster" "React, Vite" "app" "Idea" "" "" (Some ""));
                 Delete true "fets-hub"; Navigate "FETS Apps"]).
  { simpl. repeat split. right; right; now left. }
  split; [exact H |]. split; [reflexivity |].
  exact (grouping_never_raises_in_session "Idea" "In Progress" "Completed"
           "Archived" sampleDate _ _ H).
Defined.


Example handleGenerate_edit_during_request :
  let clicked := formData (sampleForm "Portal" "React" "app" "Idea" "" "" (Some "")) in
  let prev := formData (sampleForm "Portal 2" "React" "app" "Idea" "" "mine/" (Some "")) in
  let admin := {| initialData := None; modalUser := Some (sampleUser ADMIN) |} in
  let d' := snd (handleGenerate_finish (Some ("generated", "generated/")) prev) in
  handleGenerate_start admin clicked = Requested "Portal" "React"
  /\ (ProjectFormData.name d', ProjectFormData.description d',
      ProjectFormData.files d') = ("Portal 2", "generated", "mine/").
Proof. split; reflexivity. Qed.
